(** * Registration forms of arbicho-reg: validation, option loading, submission

    A shallow embedding of the three registration components
    ([src/unnamed/part_000], [src/unnamed/part_001] and
    [src/components/register.tsx]) together with the parts of their run-time
    environment they rely on: ECMAScript strings and [parseInt], zod string
    checks, [fetch], react-hot-toast and react-hook-form's [handleSubmit]. *)

From Stdlib Require Import List String Ascii Bool NArith ZArith Lia Permutation.
Import ListNotations.

Set Implicit Arguments.
Set Warnings "-register-all".

(** ** ECMAScript strings and values *)

(** A string is a sequence of UTF-16 code units; [length] is the
    [.length] property. *)
Definition code_unit := N.
Definition js_string := list code_unit.

(** String literals of the source (all of them ASCII). *)
Definition str (s : string) : js_string :=
  List.map N_of_ascii (list_ascii_of_string s).

Definition str_eqb (a b : js_string) : bool :=
  if list_eq_dec N.eq_dec a b then true else false.

(** Numbers: only [NaN] and the integer-valued numbers occur in the
    components.  [Int z] stands for the number whose mathematical value is
    [z]; the rounding of integers above 2^53 to a double and the sign of
    zero are not represented. *)
Inductive number :=
| NaN
| Int (z : Z).

(** Values: what [res.json()] may produce and what object literals build.
    [VObj] lists the own properties in insertion order, with distinct keys. *)
Inductive value :=
| VUndefined
| VNull
| VBool (b : bool)
| VNum (n : number)
| VStr (s : js_string)
| VArr (l : list value)
| VObj (fields : list (js_string * value)).

Fixpoint lookup (k : js_string) (fs : list (js_string * value)) : option value :=
  match fs with
  | [] => None
  | (k', v) :: fs' => if str_eqb k k' then Some v else lookup k fs'
  end.

Definition keys (v : value) : list js_string :=
  match v with
  | VObj fs => List.map fst fs
  | _ => []
  end.

(** [v[k]] for a property [k] that no prototype defines; [None] is the
    TypeError raised on [undefined] and [null]. *)
Definition get (v : value) (k : js_string) : option value :=
  match v with
  | VUndefined | VNull => None
  | VObj fs => Some (match lookup k fs with Some x => x | None => VUndefined end)
  | _ => Some VUndefined
  end.

(** ToBoolean. *)
Definition truthy (v : value) : bool :=
  match v with
  | VUndefined | VNull => false
  | VBool b => b
  | VNum NaN => false
  | VNum (Int z) => negb (z =? 0)%Z
  | VStr s => match s with [] => false | _ => true end
  | VArr _ | VObj _ => true
  end.

(** [a || b]. *)
Definition js_or (a b : value) : value := if truthy a then a else b.

(** ** parseInt (ECMAScript 19.2.5, radix argument absent) *)

Definition in_range (lo hi c : N) : bool := ((lo <=? c) && (c <=? hi))%N.

(** WhiteSpace and LineTerminator code units, stripped by TrimString. *)
Definition is_white_space (c : code_unit) : bool :=
  existsb (N.eqb c)
    [9; 10; 11; 12; 13; 32; 160; 5760; 8232; 8233; 8239; 8287; 12288; 65279]%N
  || in_range 8192 8202 c.

Fixpoint trim_start (s : js_string) : js_string :=
  match s with
  | c :: s' => if is_white_space c then trim_start s' else s
  | [] => []
  end.

Definition digit_value (c : code_unit) : option N :=
  if in_range 48 57 c then Some (c - 48)%N
  else if in_range 97 122 c then Some (c - 87)%N
  else if in_range 65 90 c then Some (c - 55)%N
  else None.

Definition radix_digit (R : N) (c : code_unit) : option N :=
  match digit_value c with
  | Some d => if (d <? R)%N then Some d else None
  | None => None
  end.

(** The longest prefix made of radix-[R] digits, as digit values. *)
Fixpoint take_digits (R : N) (s : js_string) : list N :=
  match s with
  | c :: s' =>
      match radix_digit R c with
      | Some d => d :: take_digits R s'
      | None => []
      end
  | [] => []
  end.

Definition math_int (R : N) (ds : list N) : N :=
  fold_left (fun acc d => (acc * R + d)%N) ds 0%N.

Definition strip_sign (s : js_string) : Z * js_string :=
  match s with
  | c :: s' =>
      if (c =? 45)%N then ((-1)%Z, s')
      else if (c =? 43)%N then (1%Z, s')
      else (1%Z, s)
  | [] => (1%Z, [])
  end.

Definition strip_prefix (s : js_string) : N * js_string :=
  match s with
  | c0 :: c1 :: s' =>
      if ((c0 =? 48) && ((c1 =? 120) || (c1 =? 88)))%N then (16%N, s')
      else (10%N, s)
  | _ => (10%N, s)
  end.

(** The result is the mathematical integer read; it is the number
    ECMAScript returns whenever that integer is a safe integer, beyond
    which the rounding to a double is not represented. *)
Definition parseInt (s : js_string) : number :=
  let '(sign, s1) := strip_sign (trim_start s) in
  let '(R, s2) := strip_prefix s1 in
  match take_digits R s2 with
  | [] => NaN
  | ds => Int (sign * Z.of_N (math_int R ds))
  end.

(** ** Regular expressions

    The patterns of the source are anchored at both ends and carry no
    multiline flag, so [RegExp.prototype.test] decides membership of the
    whole string in the language of the pattern.  Matching is by
    derivatives. *)

Inductive regex :=
| Void
| Eps
| Class (ranges : list (N * N))
| Cat (r1 r2 : regex)
| Alt (r1 r2 : regex)
| Star (r : regex).

Definition in_class (ranges : list (N * N)) (c : code_unit) : bool :=
  existsb (fun '(lo, hi) => in_range lo hi c) ranges.

Fixpoint nullable (r : regex) : bool :=
  match r with
  | Void => false
  | Eps => true
  | Class _ => false
  | Cat r1 r2 => nullable r1 && nullable r2
  | Alt r1 r2 => nullable r1 || nullable r2
  | Star _ => true
  end.

Fixpoint deriv (c : code_unit) (r : regex) : regex :=
  match r with
  | Void | Eps => Void
  | Class rs => if in_class rs c then Eps else Void
  | Cat r1 r2 =>
      if nullable r1 then Alt (Cat (deriv c r1) r2) (deriv c r2)
      else Cat (deriv c r1) r2
  | Alt r1 r2 => Alt (deriv c r1) (deriv c r2)
  | Star r1 => Cat (deriv c r1) (Star r1)
  end.

Fixpoint regex_test (r : regex) (s : js_string) : bool :=
  match s with
  | [] => nullable r
  | c :: s' => regex_test (deriv c r) s'
  end.

(** Pattern combinators: a literal code unit, [r?], [r+], [r{n}] and
    [r{lo,hi}] (written with [extra = hi - lo]). *)
Definition lit (a : ascii) : regex := Class [(N_of_ascii a, N_of_ascii a)].
Definition opt (r : regex) : regex := Alt Eps r.
Definition plus (r : regex) : regex := Cat r (Star r).

Fixpoint power (n : nat) (r : regex) : regex :=
  match n with
  | O => Eps
  | S n' => Cat r (power n' r)
  end.

Fixpoint upto (n : nat) (r : regex) : regex :=
  match n with
  | O => Eps
  | S n' => opt (Cat r (upto n' r))
  end.

Definition repeat_range (lo extra : nat) (r : regex) : regex :=
  Cat (power lo r) (upto extra r).

(** [\d] and [[1-9]]. *)
Definition digit : regex := Class [(48, 57)]%N.
Definition digit19 : regex := Class [(49, 57)]%N.

(** [/^\+[1-9]\d{1,14}$/], the pattern of [whatsapp_number] (part_000) and
    [whatsapp_numer] (part_001). *)
Definition whatsapp_regex : regex :=
  Cat (lit "+") (Cat digit19 (repeat_range 1 13 digit)).

(** The language of a pattern. *)
Inductive matches : regex -> js_string -> Prop :=
| MEps : matches Eps []
| MClass rs c : in_class rs c = true -> matches (Class rs) [c]
| MCat r1 r2 s1 s2 :
    matches r1 s1 -> matches r2 s2 -> matches (Cat r1 r2) (s1 ++ s2)
| MAltL r1 r2 s : matches r1 s -> matches (Alt r1 r2) s
| MAltR r1 r2 s : matches r2 s -> matches (Alt r1 r2) s
| MStarNil r : matches (Star r) []
| MStarApp r s1 s2 :
    matches r s1 -> matches (Star r) s2 -> matches (Star r) (s1 ++ s2).

#[local] Hint Constructors matches : core.

(** ** The environment of a component

    Exceptions, the network, notifications and the console.  An async
    function is modelled by one complete run, the outcome of its [fetch]
    being an argument. *)

Inductive exn :=
| Error (message : js_string)   (* [new Error(message)] *)
| FetchRejected                 (* [fetch] rejects: network failure *)
| JsonSyntaxError               (* [res.json()] rejects: unparsable body *)
| NullMember.                   (* member access on [null] or [undefined] *)

Inductive body :=
| Unparsable
| Json (v : value).

Record response := { status : N; payload : body }.

Inductive fetch_outcome :=
| Rejected
| Resolved (r : response).

(** [res.ok]: the status is in the range 200-299. *)
Definition ok (r : response) : bool := in_range 200 299 (status r).

Record request := {
  url : js_string;
  method : js_string;
  headers : list (js_string * js_string);
  (** the value handed to [JSON.stringify] for the body, if any *)
  data : option value
}.

Inductive toast :=
| ToastSuccess (message : value)
| ToastError (message : value).

Inductive console_arg :=
| CStr (s : js_string)
| CExn (e : exn).

(** The component state [C] together with what the component did to the
    outside: notifications shown, requests issued, console lines, oldest
    first. *)
Record world (C : Type) := {
  comp : C;
  toasts : list toast;
  requests : list request;
  console : list (list console_arg)
}.

Inductive result (A : Type) :=
| Ok (a : A)
| Throw (e : exn).
Arguments Throw {A} e.

(** State and exceptions. *)
Definition M (C A : Type) : Type := world C -> result A * world C.

Section Monad.
Context {C : Type}.

Definition ret {A} (a : A) : M C A := fun w => (Ok a, w).

Definition bind {A B} (m : M C A) (k : A -> M C B) : M C B :=
  fun w =>
    match m w with
    | (Ok a, w') => k a w'
    | (Throw e, w') => (Throw e, w')
    end.

Definition throw {A} (e : exn) : M C A := fun w => (Throw e, w).

Definition try_catch {A} (m : M C A) (h : exn -> M C A) : M C A :=
  fun w =>
    match m w with
    | (Ok a, w') => (Ok a, w')
    | (Throw e, w') => h e w'
    end.

Definition exec {A} (m : M C A) (w : world C) : world C := snd (m w).

Definition modify (f : C -> C) : M C unit :=
  fun w => (Ok tt, {| comp := f (comp w); toasts := toasts w;
                      requests := requests w; console := console w |}).

Definition toast_emit (t : toast) : M C unit :=
  fun w => (Ok tt, {| comp := comp w; toasts := toasts w ++ [t];
                      requests := requests w; console := console w |}).

Definition toast_success (message : value) : M C unit :=
  toast_emit (ToastSuccess message).

Definition toast_error (message : value) : M C unit :=
  toast_emit (ToastError message).

Definition console_error (args : list console_arg) : M C unit :=
  fun w => (Ok tt, {| comp := comp w; toasts := toasts w;
                      requests := requests w; console := console w ++ [args] |}).

(** [await fetch(url, init)]: the request leaves, then the promise
    settles as [net] says. *)
Definition fetch (net : fetch_outcome) (rq : request) : M C response :=
  fun w =>
    let w' := {| comp := comp w; toasts := toasts w;
                 requests := requests w ++ [rq]; console := console w |} in
    match net with
    | Rejected => (Throw FetchRejected, w')
    | Resolved r => (Ok r, w')
    end.

(** The two halves of [await fetch(url, init)]: the call, with which the
    request leaves, and the settling of the promise awaited. *)
Definition send (rq : request) : M C unit :=
  fun w => (Ok tt, {| comp := comp w; toasts := toasts w;
                      requests := requests w ++ [rq]; console := console w |}).

Definition answer (net : fetch_outcome) : M C response :=
  match net with
  | Rejected => throw FetchRejected
  | Resolved r => ret r
  end.

(** Handlers run one after the other. *)
Fixpoint run_all (l : list (M C unit)) : M C unit :=
  match l with
  | [] => ret tt
  | m :: l' => bind m (fun _ => run_all l')
  end.

(** [await res.json()]. *)
Definition res_json (r : response) : M C value :=
  match payload r with
  | Unparsable => throw JsonSyntaxError
  | Json v => ret v
  end.

(** [v.message]. *)
Definition member (v : value) (k : js_string) : M C value :=
  match get v k with
  | Some x => ret x
  | None => throw NullMember
  end.
End Monad.

Notation "x <- m ;; k" := (bind m (fun x => k))
  (at level 61, m at next level, right associativity).
Notation "m ;;; k" := (bind m (fun _ => k))
  (at level 61, right associativity).
Notation "'TRY' m 'CATCH' e => h" := (try_catch m (fun e => h))
  (at level 62, e name, m at level 61, h at level 61).

(** [fetch(url, { method: "GET", headers: { Accept: "*/*" } })]. *)
Definition GET (u : js_string) : request :=
  {| url := u; method := str "GET";
     headers := [(str "Accept", str "*/*")]; data := None |}.

(** [fetch(url, { method: "POST", headers: { "Content-Type":
    "application/json" }, body: JSON.stringify(formData) })]. *)
Definition POST (u : js_string) (formData : value) : request :=
  {| url := u; method := str "POST";
     headers := [(str "Content-Type", str "application/json")];
     data := Some formData |}.

(** ** zod string checks and react-hook-form *)

(** An issue: the field it is about and the message shown next to it. *)
Definition issue : Type := js_string * js_string.

Definition z_min (n : nat) (message : string) (path : string) (s : js_string)
  : list issue :=
  if (List.length s <? n)%nat then [(str path, str message)] else [].

Definition z_regex (r : regex) (message : string) (path : string) (s : js_string)
  : list issue :=
  if regex_test r s then [] else [(str path, str message)].

Definition z_check (p : js_string -> bool) (message : string) (path : string)
  (s : js_string) : list issue :=
  if p s then [] else [(str path, str message)].

Definition has_issue (path : string) (l : list issue) : bool :=
  existsb (fun i => str_eqb (fst i) (str path)) l.

(** The state [useForm] keeps: the field values and the errors shown. *)
Record form (FV : Type) := { values : FV; errors : list issue }.

Section Form.
Variables (FV C : Type).
Variable get_form : C -> form FV.
Variable set_form : form FV -> C -> C.
Variable defaultValues : FV.
Variable resolver : FV -> list issue.

(** [form.reset()]. *)
Definition form_reset : M C unit :=
  modify (set_form {| values := defaultValues; errors := [] |}).

(** [form.handleSubmit(onSubmit)]: the resolver runs on the current
    values; [onSubmit] is called with them when it reports no issue,
    otherwise the issues become the errors of the form. *)
Definition handleSubmit (onSubmit : FV -> M C unit) : M C unit :=
  fun w =>
    let v := values (get_form (comp w)) in
    match resolver v with
    | [] =>
        (modify (fun c => set_form {| values := v; errors := [] |} c) ;;;
         onSubmit v) w
    | issues =>
        modify (fun c => set_form {| values := v; errors := issues |} c) w
    end.
End Form.

(** ** src/unnamed/part_000: flat payload, country and role sent as integers *)

Module Part000.

Definition baseUrl : js_string := str "https://api.olympcentre.uz/".

Record FormValues := {
  full_name : js_string;
  country : js_string;
  role : js_string;
  email : js_string;
  whatsapp_number : js_string;
  number_of_students : js_string
}.

Definition defaultValues : FormValues :=
  {| full_name := str ""; country := str ""; role := str "";
     email := str ""; whatsapp_number := str "";
     number_of_students := str "0" |}.

(** [useForm] and the two [useState] lists. *)
Record state := {
  form_state : form FormValues;
  countries : value;
  roles : value
}.

Definition set_form (f : form FormValues) (st : state) : state :=
  {| form_state := f; countries := countries st; roles := roles st |}.

Definition with_countries (data : value) (st : state) : state :=
  {| form_state := form_state st; countries := data; roles := roles st |}.

Definition with_roles (data : value) (st : state) : state :=
  {| form_state := form_state st; countries := countries st; roles := data |}.

Definition setCountries (data : value) : M state unit :=
  modify (with_countries data).

Definition setRoles (data : value) : M state unit :=
  modify (with_roles data).

Definition initial : world state :=
  {| comp := {| form_state := {| values := defaultValues; errors := [] |};
                countries := VArr []; roles := VArr [] |};
     toasts := []; requests := []; console := [] |}.

Definition fetchCountries (net : fetch_outcome) : M state unit :=
  TRY
    (res <- fetch net (GET (baseUrl ++ str "api/countries/")) ;;
     if negb (ok res) then throw (Error (str "Failed to fetch countries"))
     else
       data <- res_json res ;;
       setCountries data)
  CATCH error =>
    (console_error [CStr (str "Error fetching countries:"); CExn error] ;;;
     toast_error (VStr (str "Failed to load countries"))).

Definition fetchRoles (net : fetch_outcome) : M state unit :=
  TRY
    (res <- fetch net (GET (baseUrl ++ str "api/roles/")) ;;
     if negb (ok res) then throw (Error (str "Failed to fetch roles"))
     else
       data <- res_json res ;;
       setRoles data)
  CATCH error =>
    (console_error [CStr (str "Error fetching roles:"); CExn error] ;;;
     toast_error (VStr (str "Failed to load roles"))).

(** The lists the component loads. *)
Inductive resource := Countries | Roles.

(** A loader up to its first [await]: [fetch] has been called and the
    request has left. *)
Definition start (rs : resource) : M state unit :=
  match rs with
  | Countries => send (GET (baseUrl ++ str "api/countries/"))
  | Roles => send (GET (baseUrl ++ str "api/roles/"))
  end.

(** The same loader from the answer on.  Whatever the answer, the loader
    acts on the component at one moment only: when it catches a failure,
    or when the body has been read. *)
Definition settle (rs : resource) (net : fetch_outcome) : M state unit :=
  match rs with
  | Countries =>
      TRY
        (res <- answer net ;;
         if negb (ok res) then throw (Error (str "Failed to fetch countries"))
         else
           data <- res_json res ;;
           setCountries data)
      CATCH error =>
        (console_error [CStr (str "Error fetching countries:"); CExn error] ;;;
         toast_error (VStr (str "Failed to load countries")))
  | Roles =>
      TRY
        (res <- answer net ;;
         if negb (ok res) then throw (Error (str "Failed to fetch roles"))
         else
           data <- res_json res ;;
           setRoles data)
      CATCH error =>
        (console_error [CStr (str "Error fetching roles:"); CExn error] ;;;
         toast_error (VStr (str "Failed to load roles")))
  end.

(** The list a loader writes to and the notice it shows on failure. *)
Definition store (rs : resource) : value -> state -> state :=
  match rs with
  | Countries => with_countries
  | Roles => with_roles
  end.

Definition notice (rs : resource) : string :=
  match rs with
  | Countries => "Failed to load countries"
  | Roles => "Failed to load roles"
  end.

(** The two [useEffect(..., [])] of the first render.  Both loaders are
    called, one after the other and without waiting for each other; each
    goes on when its answer is there.  [nets] gives the answer to each
    request and [order] the order in which the loaders go on. *)
Definition mount (nets : resource -> fetch_outcome) (order : list resource)
  : M state unit :=
  start Countries ;;; start Roles ;;;
  run_all (List.map (fun rs => settle rs (nets rs)) order).

Definition formData (values : FormValues) : value :=
  VObj [ (str "full_name", VStr (full_name values));
         (str "country", VNum (parseInt (country values)));
         (str "role", VNum (parseInt (role values)));
         (str "email", VStr (email values));
         (str "whatsapp_number", VStr (whatsapp_number values));
         (str "number_of_students", VStr (number_of_students values)) ].

Definition onSubmit (net : fetch_outcome) (values : FormValues)
  : M state unit :=
  TRY
    (res <- fetch net (POST (baseUrl ++ str "api/participation-requests/")
                            (formData values)) ;;
     if ok res then
       toast_success (VStr (str
         "Thank you for your registration. You will receive a confirmation email from the organization shortly. Please allow a few moments for this correspondence to arrive.")) ;;;
       form_reset set_form defaultValues
     else
       errorData <- res_json res ;;
       message <- member errorData (str "message") ;;
       toast_error (js_or message (VStr (str "Failed to submit registration."))))
  CATCH error =>
    (toast_error (VStr (str "An error occurred while submitting.")) ;;;
     console_error [CExn error]).

Section Zod.
(** [z.string().email()]: the pattern is zod's, not the repository's. *)
Variable is_email : js_string -> bool.

Definition formSchema (v : FormValues) : list issue :=
  z_min 3 "Full name must be at least 3 characters." "full_name"
    (full_name v)
  ++ z_min 1 "Please select a country." "country" (country v)
  ++ z_min 1 "Please select a role." "role" (role v)
  ++ z_check is_email "Please enter a valid email address." "email"
       (email v)
  ++ z_regex whatsapp_regex
       "Please enter a valid WhatsApp number starting with + (e.g., +1234567890)"
       "whatsapp_number" (whatsapp_number v)
  ++ z_min 1 "Please select number of students." "number_of_students"
       (number_of_students v).

(** [<form onSubmit={form.handleSubmit(onSubmit)}>]. *)
Definition submit (net : fetch_outcome) : M state unit :=
  handleSubmit form_state set_form formSchema (onSubmit net).
End Zod.

End Part000.

(** ** src/unnamed/part_001: subject field, headcounts nested under
    [participants], everything sent as strings *)

Module Part001.

Section Config.
(** [process.env.API_BASE_URL]: a string, or [undefined] when unset. *)
Variable API_BASE_URL : option js_string.

(** [`${baseUrl}...`]: ToString of the base URL. *)
Definition baseUrl : js_string :=
  match API_BASE_URL with
  | Some s => s
  | None => str "undefined"
  end.
End Config.

Record FormValues := {
  full_name : js_string;
  country : js_string;
  role : js_string;
  subject : js_string;
  email : js_string;
  whatsapp_numer : js_string;
  maths_students : js_string;
  informatics_students : js_string;
  maths_team_leaders : js_string;
  informatics_team_leaders : js_string
}.

Definition defaultValues : FormValues :=
  {| full_name := str ""; country := str ""; role := str "";
     subject := str ""; email := str ""; whatsapp_numer := str "";
     maths_students := str "0"; informatics_students := str "0";
     maths_team_leaders := str "0"; informatics_team_leaders := str "0" |}.

Record state := {
  form_state : form FormValues;
  countries : value;
  roles : value;
  subjects : value
}.

Definition set_form (f : form FormValues) (st : state) : state :=
  {| form_state := f; countries := countries st; roles := roles st;
     subjects := subjects st |}.

Definition with_countries (data : value) (st : state) : state :=
  {| form_state := form_state st; countries := data; roles := roles st;
     subjects := subjects st |}.

Definition with_roles (data : value) (st : state) : state :=
  {| form_state := form_state st; countries := countries st; roles := data;
     subjects := subjects st |}.

Definition with_subjects (data : value) (st : state) : state :=
  {| form_state := form_state st; countries := countries st;
     roles := roles st; subjects := data |}.

Definition setCountries (data : value) : M state unit :=
  modify (with_countries data).

Definition setRoles (data : value) : M state unit :=
  modify (with_roles data).

Definition setSubjects (data : value) : M state unit :=
  modify (with_subjects data).

Definition initial : world state :=
  {| comp := {| form_state := {| values := defaultValues; errors := [] |};
                countries := VArr []; roles := VArr [];
                subjects := VArr [] |};
     toasts := []; requests := []; console := [] |}.

Definition formData (values : FormValues) : value :=
  VObj [ (str "full_name", VStr (full_name values));
         (str "country", VStr (country values));
         (str "role", VStr (role values));
         (str "subject", VStr (subject values));
         (str "email", VStr (email values));
         (str "whatsapp_numer", VStr (whatsapp_numer values));
         (str "participants",
          VObj [ (str "maths_students", VStr (maths_students values));
                 (str "informatics_students",
                  VStr (informatics_students values));
                 (str "maths_team_leaders",
                  VStr (maths_team_leaders values));
                 (str "informatics_team_leaders",
                  VStr (informatics_team_leaders values)) ]) ].

(** The lists the component loads. *)
Inductive resource := Countries | Roles | Subjects.

(** The list a loader writes to and the notice it shows on failure. *)
Definition store (rs : resource) : value -> state -> state :=
  match rs with
  | Countries => with_countries
  | Roles => with_roles
  | Subjects => with_subjects
  end.

Definition notice (rs : resource) : string :=
  match rs with
  | Countries => "Failed to load countries"
  | Roles => "Failed to load roles"
  | Subjects => "Failed to load subjects"
  end.

Section Component.
Variable API_BASE_URL : option js_string.
Let base := baseUrl API_BASE_URL.

Definition fetchCountries (net : fetch_outcome) : M state unit :=
  TRY
    (res <- fetch net (GET (base ++ str "api/countries/")) ;;
     if negb (ok res) then throw (Error (str "Failed to fetch countries"))
     else
       data <- res_json res ;;
       setCountries data)
  CATCH error =>
    (console_error [CStr (str "Error fetching countries:"); CExn error] ;;;
     toast_error (VStr (str "Failed to load countries"))).

Definition fetchRoles (net : fetch_outcome) : M state unit :=
  TRY
    (res <- fetch net (GET (base ++ str "api/roles/")) ;;
     if negb (ok res) then throw (Error (str "Failed to fetch roles"))
     else
       data <- res_json res ;;
       setRoles data)
  CATCH error =>
    (console_error [CStr (str "Error fetching roles:"); CExn error] ;;;
     toast_error (VStr (str "Failed to load roles"))).

Definition fetchSubjects (net : fetch_outcome) : M state unit :=
  TRY
    (res <- fetch net (GET (base ++ str "api/subjects/")) ;;
     if negb (ok res) then throw (Error (str "Failed to fetch subjects"))
     else
       data <- res_json res ;;
       setSubjects data)
  CATCH error =>
    (console_error [CStr (str "Error fetching subjects:"); CExn error] ;;;
     toast_error (VStr (str "Failed to load subjects"))).

(** A loader up to its first [await]: [fetch] has been called and the
    request has left. *)
Definition start (rs : resource) : M state unit :=
  match rs with
  | Countries => send (GET (base ++ str "api/countries/"))
  | Roles => send (GET (base ++ str "api/roles/"))
  | Subjects => send (GET (base ++ str "api/subjects/"))
  end.

(** The same loader from the answer on.  Whatever the answer, the loader
    acts on the component at one moment only: when it catches a failure,
    or when the body has been read. *)
Definition settle (rs : resource) (net : fetch_outcome) : M state unit :=
  match rs with
  | Countries =>
      TRY
        (res <- answer net ;;
         if negb (ok res) then throw (Error (str "Failed to fetch countries"))
         else
           data <- res_json res ;;
           setCountries data)
      CATCH error =>
        (console_error [CStr (str "Error fetching countries:"); CExn error] ;;;
         toast_error (VStr (str "Failed to load countries")))
  | Roles =>
      TRY
        (res <- answer net ;;
         if negb (ok res) then throw (Error (str "Failed to fetch roles"))
         else
           data <- res_json res ;;
           setRoles data)
      CATCH error =>
        (console_error [CStr (str "Error fetching roles:"); CExn error] ;;;
         toast_error (VStr (str "Failed to load roles")))
  | Subjects =>
      TRY
        (res <- answer net ;;
         if negb (ok res) then throw (Error (str "Failed to fetch subjects"))
         else
           data <- res_json res ;;
           setSubjects data)
      CATCH error =>
        (console_error [CStr (str "Error fetching subjects:"); CExn error] ;;;
         toast_error (VStr (str "Failed to load subjects")))
  end.

(** The three [useEffect(..., [])] of the first render.  The loaders are
    called, one after the other and without waiting for each other; each
    goes on when its answer is there.  [nets] gives the answer to each
    request and [order] the order in which the loaders go on. *)
Definition mount (nets : resource -> fetch_outcome) (order : list resource)
  : M state unit :=
  start Countries ;;; start Roles ;;; start Subjects ;;;
  run_all (List.map (fun rs => settle rs (nets rs)) order).

Definition onSubmit (net : fetch_outcome) (values : FormValues)
  : M state unit :=
  TRY
    (res <- fetch net (POST (base ++ str "api/participation-requests/")
                            (formData values)) ;;
     if ok res then
       toast_success (VStr (str "Registration submitted successfully!")) ;;;
       form_reset set_form defaultValues
     else
       errorData <- res_json res ;;
       message <- member errorData (str "message") ;;
       toast_error
         (js_or message (VStr (str "Failed to submit registration."))))
  CATCH error =>
    (toast_error (VStr (str "An error occurred while submitting.")) ;;;
     console_error [CExn error]).

(** [z.string().email()]: the pattern is zod's, not the repository's. *)
Variable is_email : js_string -> bool.

Definition formSchema (v : FormValues) : list issue :=
  z_min 2 "Full name must be at least 2 characters." "full_name"
    (full_name v)
  ++ z_min 1 "Please select a country." "country" (country v)
  ++ z_min 1 "Please select a role." "role" (role v)
  ++ z_min 1 "Please select a subject." "subject" (subject v)
  ++ z_check is_email "Please enter a valid email address." "email"
       (email v)
  ++ z_regex whatsapp_regex
       "Please enter a valid WhatsApp number starting with + (e.g., +1234567890)"
       "whatsapp_numer" (whatsapp_numer v)
  ++ z_min 1 "Please select number of math students." "maths_students"
       (maths_students v)
  ++ z_min 1 "Please select number of informatics students."
       "informatics_students" (informatics_students v)
  ++ z_min 1 "Please select number of math team leaders."
       "maths_team_leaders" (maths_team_leaders v)
  ++ z_min 1 "Please select number of informatics team leaders."
       "informatics_team_leaders" (informatics_team_leaders v).

(** [<form onSubmit={form.handleSubmit(onSubmit)}>]. *)
Definition submit (net : fetch_outcome) : M state unit :=
  handleSubmit form_state set_form formSchema (onSubmit net).
End Component.

End Part001.

(** ** src/components/register.tsx: flat payload, country sent as an
    integer, role sent as its label, client-only rendering *)

Module Register.

Definition baseUrl : js_string := str "https://api.olympcentre.uz/".

(** [roleOptions]: id, value and label of the roles offered. *)
Definition roleOptions : list (js_string * js_string * js_string) :=
  [ (str "1", str "Team Leader", str "Team Leader");
    (str "2", str "Team Coordinator", str "Team Coordinator") ].

Record FormValues := {
  full_name : js_string;
  country : js_string;
  role : js_string;
  email : js_string;
  phone_number : js_string;
  students_coming : js_string
}.

Definition defaultValues : FormValues :=
  {| full_name := str ""; country := str ""; role := str "";
     email := str ""; phone_number := str "";
     students_coming := str "0" |}.

Record state := {
  isClient : bool;
  form_state : form FormValues;
  countries : value
}.

Definition set_form (f : form FormValues) (st : state) : state :=
  {| isClient := isClient st; form_state := f; countries := countries st |}.

Definition with_countries (data : value) (st : state) : state :=
  {| isClient := isClient st; form_state := form_state st;
     countries := data |}.

Definition setIsClient (b : bool) : M state unit :=
  modify (fun st => {| isClient := b; form_state := form_state st;
                       countries := countries st |}).

Definition setCountries (data : value) : M state unit :=
  modify (with_countries data).

Definition initial : world state :=
  {| comp := {| isClient := false;
                form_state := {| values := defaultValues; errors := [] |};
                countries := VArr [] |};
     toasts := []; requests := []; console := [] |}.

Definition fetchCountries (net : fetch_outcome) : M state unit :=
  TRY
    (res <- fetch net (GET (baseUrl ++ str "api/countries/")) ;;
     if negb (ok res) then throw (Error (str "Failed to fetch countries"))
     else
       data <- res_json res ;;
       setCountries data)
  CATCH error =>
    (console_error [CStr (str "Error fetching countries:"); CExn error] ;;;
     toast_error (VStr (str "Failed to load countries"))).

(** [useEffect(() => { setIsClient(true); }, [])]. *)
Definition effect_client : M state unit := setIsClient true.

(** [useEffect(() => { ...; if (isClient) fetchCountries(); },
    [isClient])], run with the [isClient] of the render it belongs to. *)
Definition effect_countries (net : fetch_outcome) (isClient : bool)
  : M state unit :=
  if isClient then fetchCountries net else ret tt.

(** The effects of the first render, which sees [isClient = false], then
    of the render caused by [setIsClient(true)], where only the effect
    depending on [isClient] runs again. *)
Definition mount (net_countries : fetch_outcome) : M state unit :=
  effect_client ;;; effect_countries net_countries false ;;;
  effect_countries net_countries true.

Definition formData (values : FormValues) : value :=
  VObj [ (str "full_name", VStr (full_name values));
         (str "country", VNum (parseInt (country values)));
         (str "role", VStr (role values));
         (str "email", VStr (email values));
         (str "phone_number", VStr (phone_number values));
         (str "students_coming", VStr (students_coming values)) ].

Definition onSubmit (net : fetch_outcome) (values : FormValues)
  : M state unit :=
  TRY
    (res <- fetch net (POST (baseUrl ++ str "api/participation-requests/")
                            (formData values)) ;;
     if ok res then
       toast_success (VStr (str
         "Thank you for your registration. You will receive a confirmation email from the organization shortly. Please allow a few moments for this correspondence to arrive.")) ;;;
       form_reset set_form defaultValues
     else
       errorData <- res_json res ;;
       message <- member errorData (str "message") ;;
       toast_error (js_or message (VStr (str "Failed to submit registration."))))
  CATCH error =>
    (toast_error (VStr (str "An error occurred while submitting.")) ;;;
     console_error [CExn error]).

Section Zod.
(** [z.string().email()]: the pattern is zod's, not the repository's. *)
Variable is_email : js_string -> bool.

Definition formSchema (v : FormValues) : list issue :=
  z_min 3 "Full name must be at least 3 characters." "full_name"
    (full_name v)
  ++ z_min 1 "Please select a country." "country" (country v)
  ++ z_min 1 "Please select a role." "role" (role v)
  ++ z_check is_email "Please enter a valid email address." "email"
       (email v)
  ++ z_min 1 "Please enter a valid phone number." "phone_number"
       (phone_number v)
  ++ z_min 1 "Please select number of students." "students_coming"
       (students_coming v).

(** [<form onSubmit={form.handleSubmit(onSubmit)}>]. *)
Definition submit (net : fetch_outcome) : M state unit :=
  handleSubmit form_state set_form formSchema (onSubmit net).
End Zod.

End Register.

(** ** Reference definitions used in the statements *)

(** The contact-number rule in words: a [+], a digit from 1 to 9, then
    between 1 and 14 further decimal digits, and nothing else. *)
Definition e164 (s : js_string) : bool :=
  match s with
  | p :: d :: ds =>
      (p =? 43)%N && in_range 49 57 d && forallb (in_range 48 57) ds
      && (1 <=? List.length ds)%nat && (List.length ds <=? 14)%nat
  | _ => false
  end.

(** The email pattern of zod 3.23, one possible [is_email]; it serves to
    run the components on concrete forms.  Case-insensitively: no leading
    dot and no two dots in a row (two lookaheads at the start of the
    pattern, hence tests of the whole string); a local part of letters,
    digits and [_'+-.] that does not end in a quote or a dot; [@]; one or
    more labels, each a letter or digit followed by letters, digits and
    hyphens and closed by a dot; two or more letters. *)
Module ZodEmail.
Definition alnum : list (N * N) := [(65, 90); (97, 122); (48, 57)]%N.
Definition local_char : regex :=
  Class (alnum ++ [(95, 95); (39, 39); (43, 43); (45, 45); (46, 46)]%N).
Definition local_last : regex :=
  Class (alnum ++ [(95, 95); (43, 43); (45, 45)]%N).
Definition label_first : regex := Class alnum.
Definition label_char : regex := Class (alnum ++ [(45, 45)]%N).
Definition letter : regex := Class [(65, 90); (97, 122)]%N.
(** [.] (no line terminator) and [[^]] (any code unit). *)
Definition dot : regex := Class [(0, 9); (11, 12); (14, 8231); (8234, 65535)]%N.
Definition any : regex := Class [(0, 65535)]%N.

Definition main : regex :=
  Cat (Star local_char)
    (Cat local_last
       (Cat (lit "@")
          (Cat (plus (Cat label_first (Cat (Star label_char) (lit "."))))
             (Cat (power 2 letter) (Star letter))))).

Definition leading_dot : regex := Cat (lit ".") (Star any).
Definition double_dot : regex :=
  Cat (Star dot) (Cat (lit ".") (Cat (lit ".") (Star any))).

Definition is_email (s : js_string) : bool :=
  negb (regex_test leading_dot s) && negb (regex_test double_dot s)
  && regex_test main s.
End ZodEmail.

(** The body a loader obtains: the parsed body of an answer with a
    success status, nothing when the request is rejected, the status is
    not a success or the body does not parse. *)
Definition load_data (net : fetch_outcome) : option value :=
  match net with
  | Resolved r =>
      if ok r then match payload r with Json d => Some d | Unparsable => None end
      else None
  | Rejected => None
  end.

(** What a reference-list state holds after one run of its loader. *)
Definition loaded (net : fetch_outcome) (old : value) : value :=
  match load_data net with
  | Some d => d
  | None => old
  end.

Definition load_failed (net : fetch_outcome) : bool :=
  match load_data net with
  | Some _ => false
  | None => true
  end.

(** The world after one run of a loader that requests [url], stores the
    body with [store] and reports a failure as [notice]; [lines] are the
    lines written to the console. *)
Definition after_load {C : Type} (store : value -> C -> C)
  (url notice : js_string) (lines : list (list console_arg))
  (net : fetch_outcome) (w : world C) : world C :=
  {| comp := match load_data net with
             | Some d => store d (comp w)
             | None => comp w
             end;
     toasts := toasts w ++
               (if load_failed net then [ToastError (VStr notice)] else []);
     requests := requests w ++ [GET url];
     console := console w ++ lines |}.

(** What the user is shown when the submission comes back with a
    non-success status: the [message] of the body when it has a truthy one,
    the submission-failure text when the field is missing or falsy, the
    submission-error text when the body cannot be parsed or is [null]. *)
Definition rejection_notice (b : body) : value :=
  match b with
  | Unparsable => VStr (str "An error occurred while submitting.")
  | Json e =>
      match get e (str "message") with
      | None => VStr (str "An error occurred while submitting.")
      | Some m =>
          if truthy m then m else VStr (str "Failed to submit registration.")
      end
  end.

(** The world [w] with [f] as the state of its form. *)
Definition with_form {C FV : Type} (set_form : form FV -> C -> C)
  (f : form FV) (w : world C) : world C :=
  {| comp := set_form f (comp w); toasts := toasts w;
     requests := requests w; console := console w |}.

(** Forms that raise no issue and a success outcome, used to run the
    components. *)
Definition sample000 : Part000.FormValues :=
  {| Part000.full_name := str "Ada Lovelace"; Part000.country := str "3";
     Part000.role := str "2"; Part000.email := str "ada@example.org";
     Part000.whatsapp_number := str "+1234567890";
     Part000.number_of_students := str "2" |}.

Definition sample_register : Register.FormValues :=
  {| Register.full_name := str "Ada Lovelace"; Register.country := str "3";
     Register.role := str "Team Leader";
     Register.email := str "ada@example.org";
     Register.phone_number := str "1234567890";
     Register.students_coming := str "2" |}.

Definition sample001 : Part001.FormValues :=
  {| Part001.full_name := str "Ada Lovelace"; Part001.country := str "3";
     Part001.role := str "2"; Part001.subject := str "1";
     Part001.email := str "ada@example.org";
     Part001.whatsapp_numer := str "+1234567890";
     Part001.maths_students := str "2";
     Part001.informatics_students := str "1";
     Part001.maths_team_leaders := str "1";
     Part001.informatics_team_leaders := str "0" |}.

Definition created : fetch_outcome :=
  Resolved {| status := 201; payload := Json (VObj []) |}.

(** Outcomes of a request: an HTTP 500 page, a rejection with and without
    a usable message, a country list. *)
Definition server_error : fetch_outcome :=
  Resolved {| status := 500; payload := Unparsable |}.

Definition already_registered : fetch_outcome :=
  Resolved {| status := 400;
              payload := Json (VObj [(str "message",
                                      VStr (str "Email already registered"))]) |}.

Definition empty_message : fetch_outcome :=
  Resolved {| status := 400;
              payload := Json (VObj [(str "message", VStr (str ""))]) |}.

Definition one_country : fetch_outcome :=
  Resolved {| status := 200;
              payload := Json (VArr [VObj [(str "id", VNum (Int 1));
                                           (str "name",
                                            VStr (str "Uzbekistan"))]]) |}.

(** Forms whose country (and role) is not a number. *)
Definition unparsable000 (em : js_string) : Part000.FormValues :=
  {| Part000.full_name := str "Ada Lovelace"; Part000.country := str "abc";
     Part000.role := str "xyz"; Part000.email := em;
     Part000.whatsapp_number := str "+1234567890";
     Part000.number_of_students := str "2" |}.

Definition unparsable_register (em : js_string) : Register.FormValues :=
  {| Register.full_name := str "Ada Lovelace"; Register.country := str "abc";
     Register.role := str "Team Leader"; Register.email := em;
     Register.phone_number := str "1234567890";
     Register.students_coming := str "2" |}.

(** A submission fails when the request is rejected or comes back with a
    non-success status. *)
Definition submission_failed (net : fetch_outcome) : bool :=
  match net with
  | Rejected => true
  | Resolved r => negb (ok r)
  end.

(** A body that parses but is no list of options. *)
Definition not_a_list : fetch_outcome :=
  Resolved {| status := 200;
              payload := Json (VObj [(str "detail", VStr (str "Not found."))]) |}.

(** ** Rendering of the selection controls *)

(** The decimal digits of [n], most significant first, in front of [acc];
    [fuel] bounds the number of digits. *)
Fixpoint decimal_digits (fuel : nat) (n : N) (acc : js_string) : js_string :=
  match fuel with
  | O => acc
  | S fuel' =>
      let acc' := (48 + n mod 10)%N :: acc in
      if (n <? 10)%N then acc' else decimal_digits fuel' (n / 10) acc'
  end.

Definition decimal (n : N) : js_string :=
  decimal_digits (S (N.to_nat (N.size n))) n [].

(** [Number.prototype.toString] on the numbers of the model: the decimal
    digits, after a minus sign for a negative number.  This is what
    ECMAScript prints for a safe integer (see [safe_integer]); above 2^53
    it prints the shortest digits that identify the double, and from 10^21
    on an exponent, neither of which is represented: a statement that
    uses this function holds of the code for safe integers only. *)
Definition number_toString (n : number) : js_string :=
  match n with
  | NaN => str "NaN"
  | Int z =>
      if (z <? 0)%Z then 45%N :: decimal (Z.abs_N z) else decimal (Z.abs_N z)
  end.

(** The integers a number represents exactly:
    up to [Number.MAX_SAFE_INTEGER] in magnitude. *)
Definition safe_integer (z : Z) : Prop := (Z.abs z <= 2 ^ 53 - 1)%Z.

Definition is_nullish (v : value) : bool :=
  match v with
  | VUndefined | VNull => true
  | _ => false
  end.

Definition is_array (v : value) : bool :=
  match v with
  | VArr _ => true
  | _ => false
  end.

(** [Array.prototype.join] with the default separator. *)
Fixpoint join_comma (l : list js_string) : js_string :=
  match l with
  | [] => []
  | [a] => a
  | a :: l' => a ++ 44%N :: join_comma l'
  end.

(** [v.toString()] on a value born from JSON; [None] is a TypeError:
    [undefined] and [null] have no method, and an object with a property
    of its own called [toString] has one that cannot be called.  An array
    joins its elements, [null] counting as the empty string. *)
Fixpoint toString (v : value) : option js_string :=
  match v with
  | VUndefined | VNull => None
  | VBool true => Some (str "true")
  | VBool false => Some (str "false")
  | VNum n => Some (number_toString n)
  | VStr s => Some s
  | VArr l =>
      option_map join_comma
        ((fix each (l : list value) : option (list js_string) :=
            match l with
            | [] => Some []
            | e :: l' =>
                match (if is_nullish e then Some [] else toString e), each l' with
                | Some a, Some b => Some (a :: b)
                | _, _ => None
                end
            end) l)
  | VObj fs =>
      match lookup (str "toString") fs with
      | Some _ => None
      | None => Some (str "[object Object]")
      end
  end.

(** A [<SelectItem key=... value=...>children</SelectItem>]. *)
Record select_item := {
  item_key : value;
  item_value : value;
  item_children : value
}.

(** [x?.id?.toString()]. *)
Definition optional_id_toString (x : value) : option value :=
  if is_nullish x then Some VUndefined
  else
    match get x (str "id") with
    | Some id =>
        if is_nullish id then Some VUndefined
        else option_map VStr (toString id)
    | None => None
    end.

(** [x.id.toString()]. *)
Definition id_toString (x : value) : option value :=
  match get x (str "id") with
  | Some id => option_map VStr (toString id)
  | None => None
  end.

(** The item built from one element [x] of a reference list: [x.id] as
    key, the given expression as value, [x.name] as children. *)
Definition reference_item (value_prop : value -> option value) (x : value)
  : option select_item :=
  match get x (str "id"), value_prop x, get x (str "name") with
  | Some k, Some v, Some c =>
      Some {| item_key := k; item_value := v; item_children := c |}
  | _, _, _ => None
  end.

Fixpoint map_items (f : value -> option select_item) (l : list value)
  : option (list select_item) :=
  match l with
  | [] => Some []
  | x :: l' =>
      match f x, map_items f l' with
      | Some i, Some r => Some (i :: r)
      | _, _ => None
      end
  end.

(** [Array.isArray(xs) && xs.map(f)]: nothing is rendered for a value that
    is no array. *)
Definition guarded_items (f : value -> option select_item) (xs : value)
  : option (list select_item) :=
  match xs with
  | VArr l => map_items f l
  | _ => Some []
  end.

(** [xs.map(f)]: a TypeError for a value that is no array. *)
Definition unguarded_items (f : value -> option select_item) (xs : value)
  : option (list select_item) :=
  match xs with
  | VArr l => map_items f l
  | _ => None
  end.

(** The items of the selects fed by the lists loaded; [None] when
    rendering throws. *)
Module Part000Select.
Definition country_items (st : Part000.state) : option (list select_item) :=
  guarded_items (reference_item optional_id_toString) (Part000.countries st).

Definition role_items (st : Part000.state) : option (list select_item) :=
  unguarded_items (reference_item optional_id_toString) (Part000.roles st).
End Part000Select.

Module Part001Select.
Definition country_items (st : Part001.state) : option (list select_item) :=
  guarded_items (reference_item optional_id_toString) (Part001.countries st).

Definition role_items (st : Part001.state) : option (list select_item) :=
  unguarded_items (reference_item optional_id_toString) (Part001.roles st).

Definition subject_items (st : Part001.state) : option (list select_item) :=
  unguarded_items (reference_item optional_id_toString) (Part001.subjects st).
End Part001Select.

Module RegisterSelect.
(** Nothing is rendered before [isClient] is set. *)
Definition country_items (st : Register.state) : option (list select_item) :=
  if Register.isClient st then
    guarded_items (reference_item id_toString) (Register.countries st)
  else Some [].

Definition role_items : list select_item :=
  List.map (fun '(id, v, label) =>
              {| item_key := VStr id; item_value := VStr v;
                 item_children := VStr label |})
    Register.roleOptions.
End RegisterSelect.

(** A well-typed element of a reference list: [{ id: n, name: s }], with
    whatever other properties. *)
Definition reference_option (n : Z) (s : js_string) (x : value) : Prop :=
  get x (str "id") = Some (VNum (Int n))
  /\ get x (str "name") = Some (VStr s).

(** The item expected for it. *)
Definition option_item (n : Z) (s : js_string) : select_item :=
  {| item_key := VNum (Int n);
     item_value := VStr (number_toString (Int n));
     item_children := VStr s |}.

(** What may follow a number in a string without changing what [parseInt]
    reads: nothing, or a code unit that is neither a decimal digit nor
    [x] or [X]. *)
Definition number_ends (rest : js_string) : bool :=
  match rest with
  | [] => true
  | c :: _ => negb (in_range 48 57 c) && negb (c =? 120)%N && negb (c =? 88)%N
  end.

(** The notification a run of a loader adds: its failure notice when
    the load fails, nothing otherwise. *)
Definition load_notice (net : fetch_outcome) (notice : string) : list toast :=
  if load_failed net then [ToastError (VStr (str notice))] else [].

(** The exception a run of a loader catches, if any: the rejection of the
    request, the [Error] it throws itself on a non-success status, or the
    syntax error of a body that does not parse. *)
Definition load_exception (net : fetch_outcome) (failure : string)
  : option exn :=
  match net with
  | Rejected => Some FetchRejected
  | Resolved r =>
      if ok r then
        match payload r with
        | Unparsable => Some JsonSyntaxError
        | Json _ => None
        end
      else Some (Error (str failure))
  end.

(** The console line written for it. *)
Definition load_log (net : fetch_outcome) (label failure : string)
  : list (list console_arg) :=
  match load_exception net failure with
  | Some e => [[CStr (str label); CExn e]]
  | None => []
  end.

(** ** Mounting *)

(** What the answer [net] makes of the component state through [store]. *)
Definition apply_load {C : Type} (store : value -> C -> C)
  (net : fetch_outcome) (c : C) : C :=
  match load_data net with
  | Some d => store d c
  | None => c
  end.

(** The world after a loader went on with the answer [net]: as
    [after_load], the request having left before. *)
Definition after_settle {C : Type} (store : value -> C -> C)
  (notice : string) (lines : list (list console_arg))
  (net : fetch_outcome) (w : world C) : world C :=
  {| comp := apply_load store net (comp w);
     toasts := toasts w ++ load_notice net notice;
     requests := requests w;
     console := console w ++ lines |}.

(** The answer [net] is a success whose body is the JSON array of the
    records [{ id, name }] listed in [l], the ids being safe integers. *)
Definition lists_records (net : fetch_outcome) (l : list (Z * js_string))
  : Prop :=
  exists r es,
    net = Resolved r /\ ok r = true /\ payload r = Json (VArr es)
    /\ Forall2 (fun p x => reference_option (fst p) (snd p) x) l es
    /\ Forall (fun p => safe_integer (fst p)) l.

(** The items expected for the records of [l]. *)
Definition option_items (l : list (Z * js_string)) : list select_item :=
  List.map (fun p => option_item (fst p) (snd p)) l.

(** Answers used to run a mount: the countries arrive, the roles fail. *)
Definition sample_nets000 (rs : Part000.resource) : fetch_outcome :=
  match rs with
  | Part000.Countries => one_country
  | Part000.Roles => server_error
  end.

(** * Properties *)

(** ** Matching by derivatives decides the language of a pattern *)

Lemma matches_cat_inv (r1 r2 : regex) (s : js_string) :
  matches (Cat r1 r2) s ->
  exists s1 s2, s = s1 ++ s2 /\ matches r1 s1 /\ matches r2 s2.
Proof. intros H. inversion H; subst. eauto. Qed.

Lemma matches_alt_inv (r1 r2 : regex) (s : js_string) :
  matches (Alt r1 r2) s -> matches r1 s \/ matches r2 s.
Proof. intros H. inversion H; subst; auto. Qed.

Lemma matches_cat_cons (r1 r2 : regex) c s1 s2 :
  matches r1 (c :: s1) -> matches r2 s2 -> matches (Cat r1 r2) (c :: s1 ++ s2).
Proof. intros H1 H2. apply (MCat H1 H2). Qed.

Lemma matches_cat_nil (r1 r2 : regex) s :
  matches r1 [] -> matches r2 s -> matches (Cat r1 r2) s.
Proof. intros H1 H2. apply (MCat H1 H2). Qed.

Lemma nullable_matches (r : regex) : nullable r = true <-> matches r [].
Proof.
  induction r; simpl; split; intros H; auto;
    try discriminate; try (inversion H; fail).
  - apply andb_true_iff in H as [H1 H2].
    apply matches_cat_nil; tauto.
  - apply matches_cat_inv in H as (s1 & s2 & E & H1 & H2).
    symmetry in E. apply app_eq_nil in E as [-> ->].
    apply andb_true_iff; tauto.
  - apply orb_true_iff in H as [H | H]; [apply MAltL | apply MAltR]; tauto.
  - apply orb_true_iff. apply matches_alt_inv in H. tauto.
Qed.

Lemma matches_star_cons (r : regex) (c : code_unit) (s : js_string) :
  matches (Star r) (c :: s) ->
  exists s1 s2, s = s1 ++ s2 /\ matches r (c :: s1) /\ matches (Star r) s2.
Proof.
  intros H. remember (Star r) as r' eqn:Er. remember (c :: s) as s' eqn:Es.
  revert s Es. induction H; intros s0 Es; try discriminate.
  injection Er as ->. destruct s1 as [|c1 s1]; simpl in Es.
  - apply IHmatches2; auto.
  - injection Es as -> <-. eauto.
Qed.

Lemma deriv_matches (c : code_unit) (r : regex) (s : js_string) :
  matches (deriv c r) s <-> matches r (c :: s).
Proof.
  revert s. induction r; intros s; simpl.
  - split; intros H; inversion H.
  - split; intros H; inversion H.
  - destruct (in_class ranges c) eqn:E; split; intros H; inversion H; subst; auto.
    congruence.
  - assert (L : matches (Cat (deriv c r1) r2) s ->
                matches (Cat r1 r2) (c :: s)).
    { intros H. apply matches_cat_inv in H as (s1 & s2 & -> & H1 & H2).
      apply matches_cat_cons; auto. apply IHr1; auto. }
    destruct (nullable r1) eqn:N; split; intros H; auto.
    + apply matches_alt_inv in H as [H | H]; auto.
      apply matches_cat_nil; [apply nullable_matches; auto | apply IHr2; auto].
    + apply matches_cat_inv in H as (s1 & s2 & E & H1 & H2).
      destruct s1 as [|c1 s1]; simpl in E.
      * subst s2. apply MAltR, IHr2; auto.
      * injection E as <- ->. apply MAltL. constructor; auto. apply IHr1; auto.
    + apply matches_cat_inv in H as (s1 & s2 & E & H1 & H2).
      destruct s1 as [|c1 s1]; simpl in E.
      * apply nullable_matches in H1. congruence.
      * injection E as <- ->. constructor; auto. apply IHr1; auto.
  - split; intros H; apply matches_alt_inv in H as [H | H].
    + apply MAltL, IHr1; auto.
    + apply MAltR, IHr2; auto.
    + apply MAltL, IHr1; auto.
    + apply MAltR, IHr2; auto.
  - split; intros H.
    + apply matches_cat_inv in H as (s1 & s2 & -> & H1 & H2).
      apply (@MStarApp r (c :: s1) s2); auto. apply IHr; auto.
    + apply matches_star_cons in H as (s1 & s2 & -> & H1 & H2).
      constructor; auto. apply IHr; auto.
Qed.

Lemma regex_test_matches (r : regex) (s : js_string) :
  regex_test r s = true <-> matches r s.
Proof.
  revert r. induction s as [|c s IH]; intros r; simpl.
  - apply nullable_matches.
  - rewrite IH. apply deriv_matches.
Qed.

Lemma matches_class_cat (rs : list (N * N)) (r : regex) (s : js_string) :
  matches (Cat (Class rs) r) s <->
  exists c s', s = c :: s' /\ in_class rs c = true /\ matches r s'.
Proof.
  split.
  - intros H. apply matches_cat_inv in H as (s1 & s2 & -> & H1 & H2).
    inversion H1; subst. simpl. eauto.
  - intros (c & s' & -> & Hc & Hr). apply (@MCat (Class rs) r [c] s'); auto.
Qed.

Lemma matches_power_class (rs : list (N * N)) (n : nat) (s : js_string) :
  matches (power n (Class rs)) s <->
  List.length s = n /\ forallb (in_class rs) s = true.
Proof.
  revert s. induction n as [|n IH]; intros s; simpl.
  - split.
    + intros H. inversion H; subst. auto.
    + intros [H _]. destruct s; [constructor | discriminate].
  - rewrite matches_class_cat. split.
    + intros (c & s' & -> & Hc & Hr). apply IH in Hr as [<- Hf].
      simpl. rewrite Hc, Hf. auto.
    + intros [Hl Hf]. destruct s as [|c s']; [discriminate|].
      simpl in Hl, Hf. apply andb_true_iff in Hf as [Hc Hf].
      exists c, s'. repeat split; auto. apply IH. split; [lia | auto].
Qed.

Lemma matches_upto_class (rs : list (N * N)) (n : nat) (s : js_string) :
  matches (upto n (Class rs)) s <->
  (List.length s <= n)%nat /\ forallb (in_class rs) s = true.
Proof.
  revert s. induction n as [|n IH]; intros s; simpl.
  - split.
    + intros H. inversion H; subst. auto.
    + intros [H _]. destruct s; [constructor | simpl in H; lia].
  - unfold opt. split.
    + intros H. apply matches_alt_inv in H as [H | H].
      * inversion H; subst. simpl. split; [lia | auto].
      * apply matches_class_cat in H as (c & s' & -> & Hc & Hr).
        apply IH in Hr as [Hl Hf]. simpl. rewrite Hc, Hf. split; [lia | auto].
    + intros [Hl Hf]. destruct s as [|c s'].
      * apply MAltL. constructor.
      * simpl in Hl, Hf. apply andb_true_iff in Hf as [Hc Hf].
        apply MAltR. apply matches_class_cat. exists c, s'.
        repeat split; auto. apply IH. split; [lia | auto].
Qed.

Lemma matches_repeat_range_class (rs : list (N * N)) (lo extra : nat)
  (s : js_string) :
  matches (repeat_range lo extra (Class rs)) s <->
  (lo <= List.length s <= lo + extra)%nat /\ forallb (in_class rs) s = true.
Proof.
  unfold repeat_range. split.
  - intros H. apply matches_cat_inv in H as (s1 & s2 & -> & H1 & H2).
    apply matches_power_class in H1 as [L1 F1].
    apply matches_upto_class in H2 as [L2 F2].
    rewrite length_app, forallb_app, F1, F2. split; [lia | auto].
  - intros [Hl Hf]. rewrite <- (firstn_skipn lo s) in Hf |- *.
    rewrite forallb_app in Hf. apply andb_true_iff in Hf as [F1 F2].
    constructor.
    + apply matches_power_class. split; auto.
      rewrite length_firstn. lia.
    + apply matches_upto_class. split; auto.
      rewrite length_skipn. lia.
Qed.

Lemma in_class_single (lo hi : N) (c : code_unit) :
  in_class [(lo, hi)] c = in_range lo hi c.
Proof. unfold in_class. simpl. apply orb_false_r. Qed.

Lemma forallb_in_class_single (lo hi : N) (s : js_string) :
  forallb (in_class [(lo, hi)]) s = forallb (in_range lo hi) s.
Proof.
  induction s as [|c s IH]; simpl; auto.
  rewrite IH, orb_false_r. reflexivity.
Qed.

(** The pattern of the contact number accepts exactly the strings of the
    rule in words. *)
Lemma whatsapp_regex_e164 (s : js_string) :
  regex_test whatsapp_regex s = e164 s.
Proof.
  apply eq_true_iff_eq. rewrite regex_test_matches.
  unfold whatsapp_regex, lit, digit19, digit.
  rewrite matches_class_cat. split.
  - intros (p & s1 & -> & Hp & H).
    apply matches_class_cat in H as (d & ds & -> & Hd & H).
    apply matches_repeat_range_class in H as [Hl Hf].
    rewrite in_class_single in Hp, Hd. rewrite forallb_in_class_single in Hf.
    unfold e164. rewrite Hd, Hf.
    replace (p =? 43)%N with true
      by (symmetry; apply N.eqb_eq; unfold in_range in Hp; simpl in Hp;
          apply andb_true_iff in Hp as [A B];
          apply N.leb_le in A; apply N.leb_le in B; lia).
    cbn [andb]. apply andb_true_iff. split; apply Nat.leb_le; lia.
  - unfold e164. destruct s as [|p [|d ds]]; try discriminate.
    intros H. repeat (apply andb_true_iff in H as [H ?]).
    apply N.eqb_eq in H. subst p.
    exists 43%N, (d :: ds). repeat split; auto.
    apply matches_class_cat. exists d, ds. repeat split.
    + rewrite in_class_single. auto.
    + apply matches_repeat_range_class. rewrite forallb_in_class_single.
      split; auto.
      match goal with
      | A : (1 <=? _)%nat = true, B : (_ <=? 14)%nat = true |- _ =>
          apply Nat.leb_le in A; apply Nat.leb_le in B; lia
      end.
Qed.

(** ** Issues reported by the schemas *)

Arguments str : simpl never.

Lemma has_issue_app (path : string) (a b : list issue) :
  has_issue path (a ++ b) = has_issue path a || has_issue path b.
Proof. apply existsb_app. Qed.

Lemma has_issue_z_min (path : string) n message q s :
  has_issue path (z_min n message q s) =
  (List.length s <? n)%nat && str_eqb (str q) (str path).
Proof.
  unfold z_min. destruct (List.length s <? n)%nat; simpl; auto.
  apply orb_false_r.
Qed.

Lemma has_issue_z_regex (path : string) r message q s :
  has_issue path (z_regex r message q s) =
  negb (regex_test r s) && str_eqb (str q) (str path).
Proof.
  unfold z_regex. destruct (regex_test r s); simpl; auto.
  apply orb_false_r.
Qed.

Lemma has_issue_z_check (path : string) p message q s :
  has_issue path (z_check p message q s) =
  negb (p s) && str_eqb (str q) (str path).
Proof.
  unfold z_check. destruct (p s); simpl; auto.
  apply orb_false_r.
Qed.

(** Comparisons of field names are settled by evaluation. *)
Ltac eval_str_eqb :=
  repeat match goal with
    | |- context [str_eqb (str ?a) (str ?b)] =>
        let v := eval vm_compute in (str_eqb (str a) (str b)) in
        change (str_eqb (str a) (str b)) with v
    end.

Ltac field_issue :=
  rewrite ?has_issue_app, ?has_issue_z_min, ?has_issue_z_regex,
    ?has_issue_z_check;
  eval_str_eqb;
  rewrite ?andb_false_r, ?andb_true_r, ?orb_false_r, ?orb_false_l;
  try reflexivity.

Lemma length_lt_1 (s : js_string) :
  (List.length s <? 1)%nat = match s with [] => true | _ => false end.
Proof. destruct s; reflexivity. Qed.

(** C4: in every variant the full name is refused exactly when it is
    shorter than the minimum, which is 3 code units in part_000 and
    register.tsx and 2 in part_001; a name of exactly the minimum length
    passes. *)
Theorem C4_full_name_threshold :
  forall (is_email : js_string -> bool),
    (forall v, has_issue "full_name" (Part000.formSchema is_email v)
               = negb (3 <=? List.length (Part000.full_name v))%nat)
    /\ (forall v, has_issue "full_name" (Register.formSchema is_email v)
                  = negb (3 <=? List.length (Register.full_name v))%nat)
    /\ (forall v, has_issue "full_name" (Part001.formSchema is_email v)
                  = negb (2 <=? List.length (Part001.full_name v))%nat).
Proof.
  intros is_email.
  assert (E : forall n m, (n <? m)%nat = negb (m <=? n)%nat).
  { intros n m. destruct (Nat.ltb_spec n m), (Nat.leb_spec m n); auto; lia. }
  repeat split; intros v;
    unfold Part000.formSchema, Register.formSchema, Part001.formSchema;
    field_issue; apply E.
Qed.

(** C5: in part_000 and part_001 the contact number is refused exactly
    when it is not a [+], a digit from 1 to 9 and 1 to 14 further digits
    (so ["1234567890"] is refused and ["+1234567890"] accepted); in
    register.tsx the phone number is refused exactly when it is empty, so
    ["1234567890"] is accepted there. *)
Theorem C5_contact_number_rule :
  forall (is_email : js_string -> bool),
    (forall v, has_issue "whatsapp_number" (Part000.formSchema is_email v)
               = negb (e164 (Part000.whatsapp_number v)))
    /\ (forall v, has_issue "whatsapp_numer" (Part001.formSchema is_email v)
                  = negb (e164 (Part001.whatsapp_numer v)))
    /\ (forall v, has_issue "phone_number" (Register.formSchema is_email v)
                  = match Register.phone_number v with
                    | [] => true
                    | _ => false
                    end)
    /\ e164 (str "1234567890") = false
    /\ e164 (str "+1234567890") = true.
Proof.
  intros is_email. repeat split; try intros v;
    unfold Part000.formSchema, Register.formSchema, Part001.formSchema;
    field_issue; rewrite ?whatsapp_regex_e164; try reflexivity.
  apply length_lt_1.
Qed.

(** ** Runs of the handlers *)

Ltac run_monad :=
  cbv [exec try_catch bind ret throw fetch send answer res_json member modify
       toast_emit toast_success toast_error console_error form_reset
       handleSubmit with_form snd fst].

(** Splits a run on the outcome of the request: rejected, success status,
    unparsable body, body without or with a readable [message]. *)
Ltac run_cases net :=
  run_monad;
  destruct net as [|?r]; [reflexivity|];
  unfold rejection_notice, loaded, load_failed, load_data in *;
  match goal with
  | |- context [ok ?r] => destruct (ok r) eqn:?Hok; try discriminate
  end;
  try reflexivity;
  match goal with
  | |- context [payload ?r] => destruct (payload r) as [|?e] eqn:?Hbody
  end;
  try discriminate; try reflexivity;
  match goal with
  | |- context [get ?e ?k] => destruct (get e k) eqn:?Hget
  end;
  try reflexivity.

Section HandleSubmit.
Variables (FV C : Type).
Variable get_form : C -> form FV.
Variable set_form : form FV -> C -> C.
Variable resolver : FV -> list issue.
Variable onSubmit : FV -> M C unit.

Lemma handleSubmit_run (w : world C) :
  exec (handleSubmit get_form set_form resolver onSubmit) w =
  let v := values (get_form (comp w)) in
  match resolver v with
  | [] =>
      exec (onSubmit v)
        (with_form set_form {| values := v; errors := [] |} w)
  | issues => with_form set_form {| values := v; errors := issues |} w
  end.
Proof.
  run_monad. cbv zeta.
  destruct (resolver (values (get_form (comp w)))); [|reflexivity].
  destruct (onSubmit _ _) as [[] ?]; reflexivity.
Qed.
End HandleSubmit.

Lemma part000_onSubmit_requests net v (w : world Part000.state) :
  requests (exec (Part000.onSubmit net v) w) =
  requests w ++ [POST (Part000.baseUrl ++ str "api/participation-requests/")
                      (Part000.formData v)].
Proof. unfold Part000.onSubmit. run_cases net. Qed.

Lemma part001_onSubmit_requests api net v (w : world Part001.state) :
  requests (exec (Part001.onSubmit api net v) w) =
  requests w ++ [POST (Part001.baseUrl api ++ str "api/participation-requests/")
                      (Part001.formData v)].
Proof. unfold Part001.onSubmit. run_cases net. Qed.

Lemma register_onSubmit_requests net v (w : world Register.state) :
  requests (exec (Register.onSubmit net v) w) =
  requests w ++ [POST (Register.baseUrl ++ str "api/participation-requests/")
                      (Register.formData v)].
Proof. unfold Register.onSubmit. run_cases net. Qed.

(** C1: in every variant a submission attempt issues the POST, carrying
    the payload built from the form values, exactly when the values raise
    no issue in the schema; when they raise one, no request leaves, no
    notification is shown, the values stay and the issues become the
    errors of the form. *)
Theorem C1_submission_gated_by_schema :
  forall (is_email : js_string -> bool) (net : fetch_outcome),
    (forall w,
       let v := values (Part000.form_state (comp w)) in
       let w' := exec (Part000.submit is_email net) w in
       match Part000.formSchema is_email v with
       | [] =>
           requests w' =
           requests w ++
             [POST (Part000.baseUrl ++ str "api/participation-requests/")
                   (Part000.formData v)]
       | issues =>
           requests w' = requests w /\ toasts w' = toasts w
           /\ console w' = console w
           /\ Part000.form_state (comp w') = {| values := v; errors := issues |}
       end)
    /\ (forall api w,
          let v := values (Part001.form_state (comp w)) in
          let w' := exec (Part001.submit api is_email net) w in
          match Part001.formSchema is_email v with
          | [] =>
              requests w' =
              requests w ++
                [POST (Part001.baseUrl api ++ str "api/participation-requests/")
                      (Part001.formData v)]
          | issues =>
              requests w' = requests w /\ toasts w' = toasts w
              /\ console w' = console w
              /\ Part001.form_state (comp w')
                 = {| values := v; errors := issues |}
          end)
    /\ (forall w,
          let v := values (Register.form_state (comp w)) in
          let w' := exec (Register.submit is_email net) w in
          match Register.formSchema is_email v with
          | [] =>
              requests w' =
              requests w ++
                [POST (Register.baseUrl ++ str "api/participation-requests/")
                      (Register.formData v)]
          | issues =>
              requests w' = requests w /\ toasts w' = toasts w
              /\ console w' = console w
              /\ Register.form_state (comp w')
                 = {| values := v; errors := issues |}
          end).
Proof.
  intros is_email net. repeat apply conj; intros; subst v w'.
  - unfold Part000.submit. rewrite handleSubmit_run. cbv zeta.
    destruct (Part000.formSchema _ _).
    + rewrite part000_onSubmit_requests. reflexivity.
    + repeat split.
  - unfold Part001.submit. rewrite handleSubmit_run. cbv zeta.
    destruct (Part001.formSchema _ _).
    + rewrite part001_onSubmit_requests. reflexivity.
    + repeat split.
  - unfold Register.submit. rewrite handleSubmit_run. cbv zeta.
    destruct (Register.formSchema _ _).
    + rewrite register_onSubmit_requests. reflexivity.
    + repeat split.
Qed.

(** C2: in part_000 and register.tsx, submitting values that raise no
    issue and whose country is ["3"] issues one POST to
    [https://api.olympcentre.uz/api/participation-requests/] whose payload
    has the integer 3 as [country]; the [role] of the payload is
    [parseInt] of the role string in part_000 and the role string itself
    in register.tsx. *)
Theorem C2_country_sent_as_integer :
  forall (is_email : js_string -> bool) (net : fetch_outcome),
    (forall w,
       let v := values (Part000.form_state (comp w)) in
       Part000.formSchema is_email v = [] ->
       Part000.country v = str "3" ->
       exists payload,
         requests (exec (Part000.submit is_email net) w) =
         requests w ++
           [POST (str "https://api.olympcentre.uz/api/participation-requests/")
                 payload]
         /\ get payload (str "country") = Some (VNum (Int 3))
         /\ get payload (str "role") = Some (VNum (parseInt (Part000.role v))))
    /\ (forall w,
          let v := values (Register.form_state (comp w)) in
          Register.formSchema is_email v = [] ->
          Register.country v = str "3" ->
          exists payload,
            requests (exec (Register.submit is_email net) w) =
            requests w ++
              [POST (str "https://api.olympcentre.uz/api/participation-requests/")
                    payload]
            /\ get payload (str "country") = Some (VNum (Int 3))
            /\ get payload (str "role") = Some (VStr (Register.role v))).
Proof.
  intros is_email net. split; intros w v Hvalid Hcountry; subst v.
  - exists (Part000.formData (values (Part000.form_state (comp w)))).
    unfold Part000.submit. rewrite handleSubmit_run. cbv zeta.
    rewrite Hvalid, part000_onSubmit_requests.
    unfold Part000.formData. rewrite Hcountry. repeat split.
  - exists (Register.formData (values (Register.form_state (comp w)))).
    unfold Register.submit. rewrite handleSubmit_run. cbv zeta.
    rewrite Hvalid, register_onSubmit_requests.
    unfold Register.formData. rewrite Hcountry. repeat split.
Qed.

Lemma C2_witness :
  exists payload0 payload1,
    requests (exec (Part000.submit ZodEmail.is_email created)
                (with_form Part000.set_form
                   {| values := sample000; errors := [] |} Part000.initial))
    = [POST (str "https://api.olympcentre.uz/api/participation-requests/")
            payload0]
    /\ get payload0 (str "country") = Some (VNum (Int 3))
    /\ get payload0 (str "role") = Some (VNum (Int 2))
    /\ requests (exec (Register.submit ZodEmail.is_email created)
                   (with_form Register.set_form
                      {| values := sample_register; errors := [] |}
                      Register.initial))
       = [POST (str "https://api.olympcentre.uz/api/participation-requests/")
               payload1]
    /\ get payload1 (str "country") = Some (VNum (Int 3))
    /\ get payload1 (str "role") = Some (VStr (str "Team Leader")).
Proof.
  destruct (C2_country_sent_as_integer ZodEmail.is_email created) as [H0 H1].
  destruct (H0 (with_form Part000.set_form
                  {| values := sample000; errors := [] |} Part000.initial))
    as (p0 & R0 & C0 & L0); [vm_compute; reflexivity | reflexivity |].
  destruct (H1 (with_form Register.set_form
                  {| values := sample_register; errors := [] |}
                  Register.initial))
    as (p1 & R1 & C1 & L1); [vm_compute; reflexivity | reflexivity |].
  exists p0, p1. repeat split; assumption.
Defined.

(** C3: the payload of part_001 has the keys [full_name], [country],
    [role], [subject], [email], [whatsapp_numer] and [participants]; the
    first six carry the form strings unchanged, and [participants] is an
    object with exactly the four headcount fields, again as strings; this
    payload is what the POST carries. *)
Theorem C3_nested_participants :
  forall (v : Part001.FormValues),
    let payload := Part001.formData v in
    keys payload =
      [str "full_name"; str "country"; str "role"; str "subject";
       str "email"; str "whatsapp_numer"; str "participants"]
    /\ get payload (str "full_name") = Some (VStr (Part001.full_name v))
    /\ get payload (str "country") = Some (VStr (Part001.country v))
    /\ get payload (str "role") = Some (VStr (Part001.role v))
    /\ get payload (str "subject") = Some (VStr (Part001.subject v))
    /\ get payload (str "email") = Some (VStr (Part001.email v))
    /\ get payload (str "whatsapp_numer")
       = Some (VStr (Part001.whatsapp_numer v))
    /\ get payload (str "participants") =
       Some (VObj
               [(str "maths_students", VStr (Part001.maths_students v));
                (str "informatics_students",
                 VStr (Part001.informatics_students v));
                (str "maths_team_leaders",
                 VStr (Part001.maths_team_leaders v));
                (str "informatics_team_leaders",
                 VStr (Part001.informatics_team_leaders v))])
    /\ forall api net w,
         requests (exec (Part001.onSubmit api net v) w) =
         requests w ++
           [POST (Part001.baseUrl api ++ str "api/participation-requests/")
                 payload].
Proof.
  intros v payload. subst payload. repeat split.
  intros api net w. apply part001_onSubmit_requests.
Qed.

(** Case analysis on whatever a run is waiting for. *)
Ltac split_outcome :=
  run_monad; unfold rejection_notice, loaded, load_failed, load_data in *;
  repeat match goal with
    | H : context [match ?x with Rejected => _ | Resolved _ => _ end] |- _ =>
        destruct x
    | |- context [match ?x with Rejected => _ | Resolved _ => _ end] =>
        destruct x
    | H : context [if ok ?r then _ else _] |- _ => destruct (ok r) eqn:?
    | |- context [ok ?r] => destruct (ok r) eqn:?
    | H : context [match payload ?r with Unparsable => _ | Json _ => _ end]
      |- _ => destruct (payload r) eqn:?
    | |- context [match payload ?r with Unparsable => _ | Json _ => _ end] =>
        destruct (payload r) eqn:?
    | |- context [match get ?e ?k with Some _ => _ | None => _ end] =>
        destruct (get e k) eqn:?
    | |- context [if truthy ?m then _ else _] => destruct (truthy m) eqn:?
    end;
  cbn [negb] in *; try discriminate.

(** C6: when a reference-list request is rejected, answered with a
    non-success status, or answered with a body that does not parse, the
    loader shows exactly one notification, [Failed to load] followed by the
    name of the list, and leaves the whole state of the component as it
    was: the list keeps its initial empty value, the other lists and the
    form are untouched. *)
Theorem C6_failed_load :
  forall (net : fetch_outcome),
    load_failed net = true ->
    (forall w,
       toasts (exec (Part000.fetchCountries net) w)
       = toasts w ++ [ToastError (VStr (str "Failed to load countries"))]
       /\ comp (exec (Part000.fetchCountries net) w) = comp w)
    /\ (forall w,
          toasts (exec (Part000.fetchRoles net) w)
          = toasts w ++ [ToastError (VStr (str "Failed to load roles"))]
          /\ comp (exec (Part000.fetchRoles net) w) = comp w)
    /\ (forall api w,
          toasts (exec (Part001.fetchCountries api net) w)
          = toasts w ++ [ToastError (VStr (str "Failed to load countries"))]
          /\ comp (exec (Part001.fetchCountries api net) w) = comp w)
    /\ (forall api w,
          toasts (exec (Part001.fetchRoles api net) w)
          = toasts w ++ [ToastError (VStr (str "Failed to load roles"))]
          /\ comp (exec (Part001.fetchRoles api net) w) = comp w)
    /\ (forall api w,
          toasts (exec (Part001.fetchSubjects api net) w)
          = toasts w ++ [ToastError (VStr (str "Failed to load subjects"))]
          /\ comp (exec (Part001.fetchSubjects api net) w) = comp w)
    /\ (forall w,
          toasts (exec (Register.fetchCountries net) w)
          = toasts w ++ [ToastError (VStr (str "Failed to load countries"))]
          /\ comp (exec (Register.fetchCountries net) w) = comp w)
    /\ Part000.countries (comp (exec (Part000.fetchCountries net)
                                  Part000.initial)) = VArr []
    /\ Part000.roles (comp (exec (Part000.fetchRoles net) Part000.initial))
       = VArr []
    /\ (forall api,
          Part001.countries (comp (exec (Part001.fetchCountries api net)
                                     Part001.initial)) = VArr []
          /\ Part001.roles (comp (exec (Part001.fetchRoles api net)
                                    Part001.initial)) = VArr []
          /\ Part001.subjects (comp (exec (Part001.fetchSubjects api net)
                                       Part001.initial)) = VArr [])
    /\ Register.countries (comp (exec (Register.fetchCountries net)
                                   Register.initial)) = VArr [].
Proof.
  intros net Hfail.
  unfold Part000.fetchCountries, Part000.fetchRoles, Part001.fetchCountries,
    Part001.fetchRoles, Part001.fetchSubjects, Register.fetchCountries.
  repeat apply conj; intros; split_outcome; repeat split.
Qed.

Lemma C6_witness :
  toasts (exec (Part000.fetchCountries server_error) Part000.initial)
  = [ToastError (VStr (str "Failed to load countries"))]
  /\ Part000.countries (comp (exec (Part000.fetchCountries server_error)
                                Part000.initial)) = VArr [].
Proof.
  destruct (@C6_failed_load server_error eq_refl)
    as (H & _ & _ & _ & _ & _ & E & _).
  split; [apply (proj1 (H Part000.initial)) | exact E].
Defined.

(** ** Runs of the loaders *)

Ltac loader_run :=
  unfold after_load; split_outcome; cbn;
  first [ eexists; reflexivity
        | exists []; rewrite ?app_nil_r; reflexivity ].

Lemma part000_fetchCountries_run net (w : world Part000.state) :
  exists lines,
    Part000.fetchCountries net w =
    (Ok tt, after_load Part000.with_countries
              (Part000.baseUrl ++ str "api/countries/")
              (str "Failed to load countries") lines net w).
Proof. unfold Part000.fetchCountries, Part000.setCountries. loader_run. Qed.

Lemma part000_fetchRoles_run net (w : world Part000.state) :
  exists lines,
    Part000.fetchRoles net w =
    (Ok tt, after_load Part000.with_roles
              (Part000.baseUrl ++ str "api/roles/")
              (str "Failed to load roles") lines net w).
Proof. unfold Part000.fetchRoles, Part000.setRoles. loader_run. Qed.

Lemma part001_fetchCountries_run api net (w : world Part001.state) :
  exists lines,
    Part001.fetchCountries api net w =
    (Ok tt, after_load Part001.with_countries
              (Part001.baseUrl api ++ str "api/countries/")
              (str "Failed to load countries") lines net w).
Proof. unfold Part001.fetchCountries, Part001.setCountries. loader_run. Qed.

Lemma part001_fetchRoles_run api net (w : world Part001.state) :
  exists lines,
    Part001.fetchRoles api net w =
    (Ok tt, after_load Part001.with_roles
              (Part001.baseUrl api ++ str "api/roles/")
              (str "Failed to load roles") lines net w).
Proof. unfold Part001.fetchRoles, Part001.setRoles. loader_run. Qed.

Lemma part001_fetchSubjects_run api net (w : world Part001.state) :
  exists lines,
    Part001.fetchSubjects api net w =
    (Ok tt, after_load Part001.with_subjects
              (Part001.baseUrl api ++ str "api/subjects/")
              (str "Failed to load subjects") lines net w).
Proof. unfold Part001.fetchSubjects, Part001.setSubjects. loader_run. Qed.

Lemma register_fetchCountries_run net (w : world Register.state) :
  exists lines,
    Register.fetchCountries net w =
    (Ok tt, after_load Register.with_countries
              (Register.baseUrl ++ str "api/countries/")
              (str "Failed to load countries") lines net w).
Proof. unfold Register.fetchCountries, Register.setCountries. loader_run. Qed.

(** Replaces the next loader call of the goal by its result. *)
Ltac step_loader :=
  match goal with
  | |- context [Part000.fetchCountries ?n ?w] =>
      destruct (part000_fetchCountries_run n w) as [? ->]
  | |- context [Part000.fetchRoles ?n ?w] =>
      destruct (part000_fetchRoles_run n w) as [? ->]
  | |- context [Part001.fetchCountries ?a ?n ?w] =>
      destruct (part001_fetchCountries_run a n w) as [? ->]
  | |- context [Part001.fetchRoles ?a ?n ?w] =>
      destruct (part001_fetchRoles_run a n w) as [? ->]
  | |- context [Part001.fetchSubjects ?a ?n ?w] =>
      destruct (part001_fetchSubjects_run a n w) as [? ->]
  | |- context [Register.fetchCountries ?n ?w] =>
      destruct (register_fetchCountries_run n w) as [? ->]
  end.

(** The loaders of a component write to different lists: the state they
    leave does not depend on the order in which they run, that is, on the
    order in which the answers arrive. *)
Lemma part000_loaders_commute nc nr (w : world Part000.state) :
  comp (exec (Part000.fetchCountries nc ;;; Part000.fetchRoles nr) w)
  = comp (exec (Part000.fetchRoles nr ;;; Part000.fetchCountries nc) w).
Proof.
  unfold exec, bind. repeat step_loader.
  cbn [snd after_load comp].
  destruct (load_data nc), (load_data nr); reflexivity.
Qed.

Lemma part001_loaders_commute api nc nr ns (w : world Part001.state) :
  comp (exec (Part001.fetchCountries api nc ;;; Part001.fetchRoles api nr ;;;
              Part001.fetchSubjects api ns) w)
  = comp (exec (Part001.fetchSubjects api ns ;;; Part001.fetchRoles api nr ;;;
                Part001.fetchCountries api nc) w).
Proof.
  unfold exec, bind. repeat step_loader.
  cbn [snd after_load comp].
  destruct (load_data nc), (load_data nr), (load_data ns); reflexivity.
Qed.

(** C7 as stated fails on register.tsx: its mount sends no request for
    the roles. *)
Lemma C7_counterexample :
  ~ In (GET (Register.baseUrl ++ str "api/roles/"))
       (requests (exec (Register.mount one_country) Register.initial)).
Proof.
  vm_compute. intros [H | []]. discriminate H.
Qed.

(** ** Outcomes of a submission *)

Lemma rejection_notice_message (e m : value) :
  get e (str "message") = Some m -> truthy m = true ->
  rejection_notice (Json e) = m.
Proof. intros G T. unfold rejection_notice. rewrite G, T. reflexivity. Qed.

Lemma rejection_notice_string (e : value) (c : code_unit) (s : js_string) :
  get e (str "message") = Some (VStr (c :: s)) ->
  rejection_notice (Json e) = VStr (c :: s).
Proof. intros G. apply rejection_notice_message; auto. Qed.

Lemma rejection_notice_absent (e : value) :
  get e (str "message") = Some VUndefined ->
  rejection_notice (Json e) = VStr (str "Failed to submit registration.").
Proof. intros G. unfold rejection_notice. rewrite G. reflexivity. Qed.

Lemma rejection_notice_unparsable :
  rejection_notice Unparsable = VStr (str "An error occurred while submitting.").
Proof. reflexivity. Qed.

(** C8, as the code has it: when the POST comes back with a non-success
    status, every variant shows exactly one error notification and leaves
    the component state, hence the form values, as it was, with no reset.
    The notification is the [message] of the body exactly as received when
    that value is truthy (any non-empty string is), the text [Failed to
    submit registration.] when the field is missing or falsy (the empty
    string, [null], [false], 0), and the text [An error occurred while
    submitting.] when the body does not parse or is [null]. *)
Theorem C8_rejected_submission :
  forall (r : response),
    ok r = false ->
    (forall v w,
       let w' := exec (Part000.onSubmit (Resolved r) v) w in
       toasts w' = toasts w ++ [ToastError (rejection_notice (payload r))]
       /\ comp w' = comp w)
    /\ (forall api v w,
          let w' := exec (Part001.onSubmit api (Resolved r) v) w in
          toasts w' = toasts w ++ [ToastError (rejection_notice (payload r))]
          /\ comp w' = comp w)
    /\ (forall v w,
          let w' := exec (Register.onSubmit (Resolved r) v) w in
          toasts w' = toasts w ++ [ToastError (rejection_notice (payload r))]
          /\ comp w' = comp w).
Proof.
  intros r Hr.
  unfold Part000.onSubmit, Part001.onSubmit, Register.onSubmit, js_or.
  repeat apply conj; intros; split_outcome; repeat split.
Qed.

Lemma C8_witness :
  toasts (exec (Part000.onSubmit already_registered sample000)
            (with_form Part000.set_form
               {| values := sample000; errors := [] |} Part000.initial))
  = [ToastError (VStr (str "Email already registered"))]
  /\ values (Part000.form_state
               (comp (exec (Part000.onSubmit already_registered sample000)
                        (with_form Part000.set_form
                           {| values := sample000; errors := [] |}
                           Part000.initial))))
     = sample000.
Proof.
  destruct (@C8_rejected_submission
              {| status := 400;
                 payload := Json (VObj [(str "message",
                                         VStr (str "Email already registered"))]) |}
              eq_refl) as (H & _ & _).
  destruct (H sample000
              (with_form Part000.set_form
                 {| values := sample000; errors := [] |} Part000.initial))
    as [T K].
  split.
  - exact T.
  - unfold already_registered.
    exact (f_equal (fun c => values (Part000.form_state c)) K).
Defined.

(** C8 as stated fails on a body whose [message] is the empty string: the
    field is there, yet the text shown is the fallback, not the field. *)
Lemma C8_counterexample :
  toasts (exec (Part000.onSubmit empty_message sample000) Part000.initial)
  = [ToastError (VStr (str "Failed to submit registration."))]
  /\ toasts (exec (Part000.onSubmit empty_message sample000) Part000.initial)
     <> [ToastError (VStr (str ""))].
Proof.
  split; [reflexivity | vm_compute; discriminate].
Qed.

(** C9: when the POST comes back with a success status, every variant
    shows one success notification and resets the form to its default
    values, which are the empty string for every text and selection field
    and ["0"] for every headcount field. *)
Theorem C9_successful_submission :
  forall (r : response),
    ok r = true ->
    (forall v w,
       let w' := exec (Part000.onSubmit (Resolved r) v) w in
       toasts w' = toasts w ++
         [ToastSuccess (VStr (str
           "Thank you for your registration. You will receive a confirmation email from the organization shortly. Please allow a few moments for this correspondence to arrive."))]
       /\ Part000.form_state (comp w')
          = {| values :=
                 {| Part000.full_name := str ""; Part000.country := str "";
                    Part000.role := str ""; Part000.email := str "";
                    Part000.whatsapp_number := str "";
                    Part000.number_of_students := str "0" |};
               errors := [] |})
    /\ (forall api v w,
          let w' := exec (Part001.onSubmit api (Resolved r) v) w in
          toasts w' = toasts w ++ [ToastSuccess (VStr (str "Registration submitted successfully!"))]
          /\ Part001.form_state (comp w')
             = {| values :=
                    {| Part001.full_name := str ""; Part001.country := str "";
                       Part001.role := str ""; Part001.subject := str "";
                       Part001.email := str "";
                       Part001.whatsapp_numer := str "";
                       Part001.maths_students := str "0";
                       Part001.informatics_students := str "0";
                       Part001.maths_team_leaders := str "0";
                       Part001.informatics_team_leaders := str "0" |};
                  errors := [] |})
    /\ (forall v w,
          let w' := exec (Register.onSubmit (Resolved r) v) w in
          toasts w' = toasts w ++
         [ToastSuccess (VStr (str
           "Thank you for your registration. You will receive a confirmation email from the organization shortly. Please allow a few moments for this correspondence to arrive."))]
          /\ Register.form_state (comp w')
             = {| values :=
                    {| Register.full_name := str ""; Register.country := str "";
                       Register.role := str ""; Register.email := str "";
                       Register.phone_number := str "";
                       Register.students_coming := str "0" |};
                  errors := [] |}).
Proof.
  intros r Hr.
  unfold Part000.onSubmit, Part001.onSubmit, Register.onSubmit.
  repeat apply conj; intros; split_outcome;
    (split; reflexivity).
Qed.

Lemma C9_witness :
  toasts (exec (Part000.onSubmit created sample000)
            (with_form Part000.set_form
               {| values := sample000; errors := [] |} Part000.initial))
  = [ToastSuccess (VStr (str
           "Thank you for your registration. You will receive a confirmation email from the organization shortly. Please allow a few moments for this correspondence to arrive."))]
  /\ values (Part000.form_state
               (comp (exec (Part000.onSubmit created sample000)
                        (with_form Part000.set_form
                           {| values := sample000; errors := [] |}
                           Part000.initial))))
     = Part000.defaultValues.
Proof.
  destruct (@C9_successful_submission
              {| status := 201; payload := Json (VObj []) |} eq_refl)
    as (H & _ & _).
  destruct (H sample000
              (with_form Part000.set_form
                 {| values := sample000; errors := [] |} Part000.initial))
    as [T K].
  split.
  - exact T.
  - unfold created.
    exact (f_equal (@values Part000.FormValues) K).
Defined.

(** ** Identifiers that are not numbers *)

(** C10: the schemas of part_000 and register.tsx ask of the country (and
    part_000 of the role) only that it be non-empty.  A form whose country
    is ["abc"] (and whose role is ["xyz"]) therefore raises no issue as
    soon as its email is one zod accepts; submitting it sends a payload
    whose [country] (and, in part_000, [role]) is [NaN], not an integer. *)
Theorem C10_non_numeric_id_passes :
  forall (is_email : js_string -> bool) (em : js_string),
    is_email em = true ->
    (forall v, has_issue "country" (Part000.formSchema is_email v)
               = match Part000.country v with [] => true | _ => false end)
    /\ (forall v, has_issue "role" (Part000.formSchema is_email v)
                  = match Part000.role v with [] => true | _ => false end)
    /\ (forall v, has_issue "country" (Register.formSchema is_email v)
                  = match Register.country v with [] => true | _ => false end)
    /\ Part000.formSchema is_email (unparsable000 em) = []
    /\ get (Part000.formData (unparsable000 em)) (str "country")
       = Some (VNum NaN)
    /\ get (Part000.formData (unparsable000 em)) (str "role")
       = Some (VNum NaN)
    /\ (forall net,
          requests (exec (Part000.submit is_email net)
                      (with_form Part000.set_form
                         {| values := unparsable000 em; errors := [] |}
                         Part000.initial))
          = [POST (str "https://api.olympcentre.uz/api/participation-requests/")
                  (Part000.formData (unparsable000 em))])
    /\ Register.formSchema is_email (unparsable_register em) = []
    /\ get (Register.formData (unparsable_register em)) (str "country")
       = Some (VNum NaN)
    /\ (forall net,
          requests (exec (Register.submit is_email net)
                      (with_form Register.set_form
                         {| values := unparsable_register em; errors := [] |}
                         Register.initial))
          = [POST (str "https://api.olympcentre.uz/api/participation-requests/")
                  (Register.formData (unparsable_register em))]).
Proof.
  intros is_email em Hem.
  assert (V0 : Part000.formSchema is_email (unparsable000 em) = []).
  { unfold Part000.formSchema, z_check. cbn [Part000.email unparsable000].
    rewrite Hem. vm_compute. reflexivity. }
  assert (V1 : Register.formSchema is_email (unparsable_register em) = []).
  { unfold Register.formSchema, z_check.
    cbn [Register.email unparsable_register].
    rewrite Hem. vm_compute. reflexivity. }
  repeat apply conj; try reflexivity; try assumption.
  - intros v. unfold Part000.formSchema. field_issue. apply length_lt_1.
  - intros v. unfold Part000.formSchema. field_issue. apply length_lt_1.
  - intros v. unfold Register.formSchema. field_issue. apply length_lt_1.
  - intros net. unfold Part000.submit. rewrite handleSubmit_run. cbv zeta.
    cbn [with_form comp Part000.set_form Part000.form_state values].
    rewrite V0, part000_onSubmit_requests. reflexivity.
  - intros net. unfold Register.submit. rewrite handleSubmit_run. cbv zeta.
    cbn [with_form comp Register.set_form Register.form_state values].
    rewrite V1, register_onSubmit_requests. reflexivity.
Qed.

Lemma C10_witness :
  Part000.formSchema ZodEmail.is_email (unparsable000 (str "ada@example.org"))
  = []
  /\ get (Part000.formData (unparsable000 (str "ada@example.org")))
       (str "country") = Some (VNum NaN)
  /\ Register.formSchema ZodEmail.is_email
       (unparsable_register (str "ada@example.org")) = []
  /\ get (Register.formData (unparsable_register (str "ada@example.org")))
       (str "country") = Some (VNum NaN).
Proof.
  assert (E : ZodEmail.is_email (str "ada@example.org") = true)
    by (vm_compute; reflexivity).
  destruct (C10_non_numeric_id_passes ZodEmail.is_email
              (str "ada@example.org") E)
    as (_ & _ & _ & A & B & _ & _ & C & D & _).
  repeat split; assumption.
Defined.

(** ** The handlers on concrete inputs *)

Example parseInt_3 : parseInt (str "3") = Int 3.
Proof. reflexivity. Qed.

Example parseInt_abc : parseInt (str "abc") = NaN.
Proof. reflexivity. Qed.

Example parseInt_mixed : parseInt (str "  -0x1Fz") = Int (-31).
Proof. reflexivity. Qed.

Example parseInt_leading_digits : parseInt (str "12px") = Int 12.
Proof. reflexivity. Qed.

Example whatsapp_plus : regex_test whatsapp_regex (str "+1234567890") = true.
Proof. vm_compute. reflexivity. Qed.

Example whatsapp_bare : regex_test whatsapp_regex (str "1234567890") = false.
Proof. vm_compute. reflexivity. Qed.

Example whatsapp_trailing_newline :
  regex_test whatsapp_regex (str "+1234567890" ++ [10%N]) = false.
Proof. vm_compute. reflexivity. Qed.

Example zod_email_accepts : ZodEmail.is_email (str "ada@example.org") = true.
Proof. vm_compute. reflexivity. Qed.

Example zod_email_no_at : ZodEmail.is_email (str "ada.example.org") = false.
Proof. vm_compute. reflexivity. Qed.

Example zod_email_double_dot :
  ZodEmail.is_email (str "a..b@example.org") = false.
Proof. vm_compute. reflexivity. Qed.

Example sample000_valid : Part000.formSchema ZodEmail.is_email sample000 = [].
Proof. vm_compute. reflexivity. Qed.

Example sample001_valid : Part001.formSchema ZodEmail.is_email sample001 = [].
Proof. vm_compute. reflexivity. Qed.

Example sample_register_valid :
  Register.formSchema ZodEmail.is_email sample_register = [].
Proof. vm_compute. reflexivity. Qed.

Example default_form_refused :
  List.map fst (Part000.formSchema ZodEmail.is_email Part000.defaultValues)
  = [str "full_name"; str "country"; str "role"; str "email";
     str "whatsapp_number"].
Proof. vm_compute. reflexivity. Qed.

(** * Further properties of the handlers *)

(** ** Submission: transport failure, notifications, exceptions *)

(** X1: when the request of a submission is rejected (no answer from the
    network), every variant shows the one notification [An error occurred
    while submitting.], writes the error to the console and leaves the
    component state, hence the form values, as it was. *)
Theorem submit_network_failure :
  (forall v w,
     let w' := exec (Part000.onSubmit Rejected v) w in
     toasts w' = toasts w ++
                 [ToastError (VStr (str "An error occurred while submitting."))]
     /\ console w' = console w ++ [[CExn FetchRejected]]
     /\ comp w' = comp w)
  /\ (forall api v w,
        let w' := exec (Part001.onSubmit api Rejected v) w in
        toasts w' = toasts w ++
                    [ToastError (VStr (str "An error occurred while submitting."))]
        /\ console w' = console w ++ [[CExn FetchRejected]]
        /\ comp w' = comp w)
  /\ (forall v w,
        let w' := exec (Register.onSubmit Rejected v) w in
        toasts w' = toasts w ++
                    [ToastError (VStr (str "An error occurred while submitting."))]
        /\ console w' = console w ++ [[CExn FetchRejected]]
        /\ comp w' = comp w).
Proof. repeat split. Qed.

(** X2: no exception escapes a handler: whatever the network answers, the
    loaders, [onSubmit] and the submit handler of every variant complete
    normally, every failure being caught inside them. *)
Theorem handlers_never_throw :
  forall (is_email : js_string -> bool) (net : fetch_outcome),
    (forall w, fst (Part000.fetchCountries net w) = Ok tt)
    /\ (forall w, fst (Part000.fetchRoles net w) = Ok tt)
    /\ (forall v w, fst (Part000.onSubmit net v w) = Ok tt)
    /\ (forall w, fst (Part000.submit is_email net w) = Ok tt)
    /\ (forall api w, fst (Part001.fetchCountries api net w) = Ok tt)
    /\ (forall api w, fst (Part001.fetchRoles api net w) = Ok tt)
    /\ (forall api w, fst (Part001.fetchSubjects api net w) = Ok tt)
    /\ (forall api v w, fst (Part001.onSubmit api net v w) = Ok tt)
    /\ (forall api w, fst (Part001.submit api is_email net w) = Ok tt)
    /\ (forall w, fst (Register.fetchCountries net w) = Ok tt)
    /\ (forall v w, fst (Register.onSubmit net v w) = Ok tt)
    /\ (forall w, fst (Register.submit is_email net w) = Ok tt).
Proof.
  intros is_email net.
  assert (S0 : forall v w, fst (Part000.onSubmit net v w) = Ok tt)
    by (intros; unfold Part000.onSubmit; split_outcome; reflexivity).
  assert (S1 : forall api v w, fst (Part001.onSubmit api net v w) = Ok tt)
    by (intros; unfold Part001.onSubmit; split_outcome; reflexivity).
  assert (S2 : forall v w, fst (Register.onSubmit net v w) = Ok tt)
    by (intros; unfold Register.onSubmit; split_outcome; reflexivity).
  repeat apply conj; intros; auto;
    try (step_loader; reflexivity).
  - unfold Part000.submit, handleSubmit.
    destruct (Part000.formSchema _ _); [|reflexivity].
    unfold bind, modify. apply S0.
  - unfold Part001.submit, handleSubmit.
    destruct (Part001.formSchema _ _); [|reflexivity].
    unfold bind, modify. apply S1.
  - unfold Register.submit, handleSubmit.
    destruct (Register.formSchema _ _); [|reflexivity].
    unfold bind, modify. apply S2.
Qed.

(** X3: every run of [onSubmit], whatever the outcome, sends exactly one
    POST (there is no retry) and ends with exactly one notification. *)
Theorem one_request_one_notification :
  forall (net : fetch_outcome),
    (forall v w,
       let w' := exec (Part000.onSubmit net v) w in
       (exists rq, requests w' = requests w ++ [rq]
                   /\ method rq = str "POST")
       /\ exists t, toasts w' = toasts w ++ [t])
    /\ (forall api v w,
          let w' := exec (Part001.onSubmit api net v) w in
          (exists rq, requests w' = requests w ++ [rq]
                      /\ method rq = str "POST")
          /\ exists t, toasts w' = toasts w ++ [t])
    /\ (forall v w,
          let w' := exec (Register.onSubmit net v) w in
          (exists rq, requests w' = requests w ++ [rq]
                      /\ method rq = str "POST")
          /\ exists t, toasts w' = toasts w ++ [t]).
Proof.
  intros net.
  unfold Part000.onSubmit, Part001.onSubmit, Register.onSubmit.
  repeat apply conj; intros; split_outcome;
    (split; [eexists; split; reflexivity | eexists; reflexivity]).
Qed.

(** ** Submitting twice *)

(** X4: after a submission that succeeded the form is back to its default
    values, which the schema refuses: submitting again at once sends no
    second request and shows no further notification; the form keeps the
    default values and displays the issues they raise, all of them, the
    issue of the full name among them. *)
Theorem resubmit_after_success_blocked :
  forall (is_email : js_string -> bool) (r : response) (net : fetch_outcome),
    ok r = true ->
    (forall w,
       Part000.formSchema is_email (values (Part000.form_state (comp w))) = [] ->
       let w1 := exec (Part000.submit is_email (Resolved r)) w in
       let w2 := exec (Part000.submit is_email net) w1 in
       requests w2 = requests w1 /\ toasts w2 = toasts w1
       /\ List.length (requests w1) = S (List.length (requests w))
       /\ values (Part000.form_state (comp w2)) = Part000.defaultValues
       /\ errors (Part000.form_state (comp w2))
          = Part000.formSchema is_email Part000.defaultValues
       /\ has_issue "full_name" (errors (Part000.form_state (comp w2))) = true)
    /\ (forall api w,
          Part001.formSchema is_email (values (Part001.form_state (comp w)))
          = [] ->
          let w1 := exec (Part001.submit api is_email (Resolved r)) w in
          let w2 := exec (Part001.submit api is_email net) w1 in
          requests w2 = requests w1 /\ toasts w2 = toasts w1
          /\ List.length (requests w1) = S (List.length (requests w))
          /\ values (Part001.form_state (comp w2)) = Part001.defaultValues
          /\ errors (Part001.form_state (comp w2))
             = Part001.formSchema is_email Part001.defaultValues
          /\ has_issue "full_name" (errors (Part001.form_state (comp w2)))
             = true)
    /\ (forall w,
          Register.formSchema is_email (values (Register.form_state (comp w)))
          = [] ->
          let w1 := exec (Register.submit is_email (Resolved r)) w in
          let w2 := exec (Register.submit is_email net) w1 in
          requests w2 = requests w1 /\ toasts w2 = toasts w1
          /\ List.length (requests w1) = S (List.length (requests w))
          /\ values (Register.form_state (comp w2)) = Register.defaultValues
          /\ errors (Register.form_state (comp w2))
             = Register.formSchema is_email Register.defaultValues
          /\ has_issue "full_name" (errors (Register.form_state (comp w2)))
             = true).
Proof.
  intros is_email r net Hr. repeat apply conj.
  - intros w Hv w1 w2. subst w2 w1.
    unfold Part000.submit. rewrite !handleSubmit_run. cbv zeta. rewrite Hv.
    unfold Part000.onSubmit. run_monad. rewrite Hr.
    cbn [comp Part000.set_form Part000.form_state values snd].
    destruct (Part000.formSchema is_email Part000.defaultValues) eqn:E.
    + exfalso.
      assert (F : has_issue "full_name"
                    (Part000.formSchema is_email Part000.defaultValues) = true)
        by (unfold Part000.formSchema; field_issue).
      rewrite E in F. discriminate F.
    + cbn [comp requests toasts Part000.set_form Part000.form_state values
             errors].
      rewrite length_app, Nat.add_comm. repeat split.
      rewrite <- E. unfold Part000.formSchema. field_issue.
  - intros api w Hv w1 w2. subst w2 w1.
    unfold Part001.submit. rewrite !handleSubmit_run. cbv zeta. rewrite Hv.
    unfold Part001.onSubmit. run_monad. rewrite Hr.
    cbn [comp Part001.set_form Part001.form_state values snd].
    destruct (Part001.formSchema is_email Part001.defaultValues) eqn:E.
    + exfalso.
      assert (F : has_issue "full_name"
                    (Part001.formSchema is_email Part001.defaultValues) = true)
        by (unfold Part001.formSchema; field_issue).
      rewrite E in F. discriminate F.
    + cbn [comp requests toasts Part001.set_form Part001.form_state values
             errors].
      rewrite length_app, Nat.add_comm. repeat split.
      rewrite <- E. unfold Part001.formSchema. field_issue.
  - intros w Hv w1 w2. subst w2 w1.
    unfold Register.submit. rewrite !handleSubmit_run. cbv zeta. rewrite Hv.
    unfold Register.onSubmit. run_monad. rewrite Hr.
    cbn [comp Register.set_form Register.form_state values snd].
    destruct (Register.formSchema is_email Register.defaultValues) eqn:E.
    + exfalso.
      assert (F : has_issue "full_name"
                    (Register.formSchema is_email Register.defaultValues) = true)
        by (unfold Register.formSchema; field_issue).
      rewrite E in F. discriminate F.
    + cbn [comp requests toasts Register.set_form Register.form_state values
             errors].
      rewrite length_app, Nat.add_comm. repeat split.
      rewrite <- E. unfold Register.formSchema. field_issue.
Qed.

Lemma resubmit_after_success_blocked_witness :
  requests (exec (Part000.submit ZodEmail.is_email created)
              (exec (Part000.submit ZodEmail.is_email created)
                 (with_form Part000.set_form
                    {| values := sample000; errors := [] |} Part000.initial)))
  = requests (exec (Part000.submit ZodEmail.is_email created)
                (with_form Part000.set_form
                   {| values := sample000; errors := [] |} Part000.initial)).
Proof.
  destruct (@resubmit_after_success_blocked ZodEmail.is_email
              {| status := 201; payload := Json (VObj []) |} created eq_refl)
    as (H & _ & _).
  destruct (H (with_form Part000.set_form
                 {| values := sample000; errors := [] |} Part000.initial))
    as (R & _); [vm_compute; reflexivity | exact R].
Defined.

Lemma part000_onSubmit_failed_comp net v (w : world Part000.state) :
  submission_failed net = true ->
  comp (exec (Part000.onSubmit net v) w) = comp w.
Proof.
  unfold submission_failed, Part000.onSubmit, js_or. intros H.
  split_outcome; reflexivity.
Qed.

Lemma part001_onSubmit_failed_comp api net v (w : world Part001.state) :
  submission_failed net = true ->
  comp (exec (Part001.onSubmit api net v) w) = comp w.
Proof.
  unfold submission_failed, Part001.onSubmit, js_or. intros H.
  split_outcome; reflexivity.
Qed.

Lemma register_onSubmit_failed_comp net v (w : world Register.state) :
  submission_failed net = true ->
  comp (exec (Register.onSubmit net v) w) = comp w.
Proof.
  unfold submission_failed, Register.onSubmit, js_or. intros H.
  split_outcome; reflexivity.
Qed.

(** X5: after a submission that failed (request rejected, or non-success
    status) the values are still in the form: submitting again sends the
    same payload to the same address a second time. *)
Theorem retry_after_failure :
  forall (is_email : js_string -> bool) (net1 net2 : fetch_outcome),
    submission_failed net1 = true ->
    (forall w,
       let v := values (Part000.form_state (comp w)) in
       Part000.formSchema is_email v = [] ->
       requests (exec (Part000.submit is_email net2)
                   (exec (Part000.submit is_email net1) w))
       = requests w ++
           [POST (Part000.baseUrl ++ str "api/participation-requests/")
                 (Part000.formData v);
            POST (Part000.baseUrl ++ str "api/participation-requests/")
                 (Part000.formData v)])
    /\ (forall api w,
          let v := values (Part001.form_state (comp w)) in
          Part001.formSchema is_email v = [] ->
          requests (exec (Part001.submit api is_email net2)
                      (exec (Part001.submit api is_email net1) w))
          = requests w ++
              [POST (Part001.baseUrl api ++ str "api/participation-requests/")
                    (Part001.formData v);
               POST (Part001.baseUrl api ++ str "api/participation-requests/")
                    (Part001.formData v)])
    /\ (forall w,
          let v := values (Register.form_state (comp w)) in
          Register.formSchema is_email v = [] ->
          requests (exec (Register.submit is_email net2)
                      (exec (Register.submit is_email net1) w))
          = requests w ++
              [POST (Register.baseUrl ++ str "api/participation-requests/")
                    (Register.formData v);
               POST (Register.baseUrl ++ str "api/participation-requests/")
                    (Register.formData v)]).
Proof.
  intros is_email net1 net2 Hfail. repeat apply conj.
  - intros w v Hv. subst v. unfold Part000.submit.
    rewrite (handleSubmit_run _ _ _ _ (exec _ w)). cbv zeta.
    rewrite handleSubmit_run. cbv zeta. rewrite Hv.
    rewrite part000_onSubmit_failed_comp by assumption.
    cbn [with_form comp Part000.set_form Part000.form_state values].
    rewrite Hv, part000_onSubmit_requests. cbn [with_form requests].
    rewrite part000_onSubmit_requests. cbn [with_form requests].
    rewrite <- app_assoc. reflexivity.
  - intros api w v Hv. subst v. unfold Part001.submit.
    rewrite (handleSubmit_run _ _ _ _ (exec _ w)). cbv zeta.
    rewrite handleSubmit_run. cbv zeta. rewrite Hv.
    rewrite part001_onSubmit_failed_comp by assumption.
    cbn [with_form comp Part001.set_form Part001.form_state values].
    rewrite Hv, part001_onSubmit_requests. cbn [with_form requests].
    rewrite part001_onSubmit_requests. cbn [with_form requests].
    rewrite <- app_assoc. reflexivity.
  - intros w v Hv. subst v. unfold Register.submit.
    rewrite (handleSubmit_run _ _ _ _ (exec _ w)). cbv zeta.
    rewrite handleSubmit_run. cbv zeta. rewrite Hv.
    rewrite register_onSubmit_failed_comp by assumption.
    cbn [with_form comp Register.set_form Register.form_state values].
    rewrite Hv, register_onSubmit_requests. cbn [with_form requests].
    rewrite register_onSubmit_requests. cbn [with_form requests].
    rewrite <- app_assoc. reflexivity.
Qed.

Lemma retry_after_failure_witness :
  requests (exec (Part000.submit ZodEmail.is_email created)
              (exec (Part000.submit ZodEmail.is_email server_error)
                 (with_form Part000.set_form
                    {| values := sample000; errors := [] |} Part000.initial)))
  = [POST (Part000.baseUrl ++ str "api/participation-requests/")
          (Part000.formData sample000);
     POST (Part000.baseUrl ++ str "api/participation-requests/")
          (Part000.formData sample000)].
Proof.
  destruct (@retry_after_failure ZodEmail.is_email server_error created
              eq_refl) as (H & _ & _).
  apply (H (with_form Part000.set_form
              {| values := sample000; errors := [] |} Part000.initial)).
  vm_compute. reflexivity.
Defined.

(** X14: an attempt that the schema refuses changes nothing but the errors
    shown, so repeating it changes nothing more: refused twice is refused
    once. *)
Theorem refused_submit_idempotent :
  forall (is_email : js_string -> bool) (net1 net2 : fetch_outcome),
    (forall w,
       Part000.formSchema is_email (values (Part000.form_state (comp w))) <> [] ->
       exec (Part000.submit is_email net2) (exec (Part000.submit is_email net1) w)
       = exec (Part000.submit is_email net1) w)
    /\ (forall api w,
          Part001.formSchema is_email (values (Part001.form_state (comp w)))
          <> [] ->
          exec (Part001.submit api is_email net2)
            (exec (Part001.submit api is_email net1) w)
          = exec (Part001.submit api is_email net1) w)
    /\ (forall w,
          Register.formSchema is_email (values (Register.form_state (comp w)))
          <> [] ->
          exec (Register.submit is_email net2)
            (exec (Register.submit is_email net1) w)
          = exec (Register.submit is_email net1) w).
Proof.
  intros is_email net1 net2. repeat apply conj.
  - intros w Hv. unfold Part000.submit.
    rewrite (handleSubmit_run _ _ _ _ (exec _ w)). cbv zeta.
    rewrite handleSubmit_run. cbv zeta.
    destruct (Part000.formSchema is_email _) eqn:E; [congruence|].
    cbn [with_form comp Part000.set_form Part000.form_state values].
    rewrite E. reflexivity.
  - intros api w Hv. unfold Part001.submit.
    rewrite (handleSubmit_run _ _ _ _ (exec _ w)). cbv zeta.
    rewrite handleSubmit_run. cbv zeta.
    destruct (Part001.formSchema is_email _) eqn:E; [congruence|].
    cbn [with_form comp Part001.set_form Part001.form_state values].
    rewrite E. reflexivity.
  - intros w Hv. unfold Register.submit.
    rewrite (handleSubmit_run _ _ _ _ (exec _ w)). cbv zeta.
    rewrite handleSubmit_run. cbv zeta.
    destruct (Register.formSchema is_email _) eqn:E; [congruence|].
    cbn [with_form comp Register.set_form Register.form_state values].
    rewrite E. reflexivity.
Qed.

Lemma refused_submit_idempotent_witness :
  exec (Part000.submit ZodEmail.is_email created)
    (exec (Part000.submit ZodEmail.is_email created) Part000.initial)
  = exec (Part000.submit ZodEmail.is_email created) Part000.initial.
Proof.
  destruct (refused_submit_idempotent ZodEmail.is_email created created)
    as (H & _ & _).
  apply H. vm_compute. discriminate.
Defined.

(** ** What the schemas accept *)

Lemma app_nil_iff {A : Type} (a b : list A) :
  a ++ b = [] <-> a = [] /\ b = [].
Proof.
  split; [apply app_eq_nil | intros [-> ->]; reflexivity].
Qed.

Lemma z_min_nil n message path (s : js_string) :
  z_min n message path s = [] <-> (n <= List.length s)%nat.
Proof.
  unfold z_min. destruct (Nat.ltb_spec (List.length s) n); split; intros;
    try discriminate; try reflexivity; lia.
Qed.

Lemma z_min_1_nil message path (s : js_string) :
  z_min 1 message path s = [] <-> s <> [].
Proof.
  rewrite z_min_nil. destruct s; simpl; split; intros; try congruence; lia.
Qed.

Lemma z_regex_nil r message path (s : js_string) :
  z_regex r message path s = [] <-> regex_test r s = true.
Proof.
  unfold z_regex. destruct (regex_test r s); split; intros;
    try discriminate; reflexivity.
Qed.

Lemma z_check_nil p message path (s : js_string) :
  z_check p message path s = [] <-> p s = true.
Proof.
  unfold z_check. destruct (p s); split; intros; try discriminate; reflexivity.
Qed.

(** X6: the values a schema lets through, field by field.  part_000: a
    full name of 3 code units or more, a country and a role that are not
    empty, an email zod accepts, a contact number made of [+], a digit
    from 1 to 9 and 1 to 14 digits, and a headcount that is not empty;
    register.tsx: the same with any non-empty phone number; part_001: a
    full name of 2 code units or more, a subject, and four headcounts. *)
Theorem schema_accepts_exactly :
  forall (is_email : js_string -> bool),
    (forall v,
       Part000.formSchema is_email v = [] <->
       (3 <= List.length (Part000.full_name v))%nat
       /\ Part000.country v <> [] /\ Part000.role v <> []
       /\ is_email (Part000.email v) = true
       /\ e164 (Part000.whatsapp_number v) = true
       /\ Part000.number_of_students v <> [])
    /\ (forall v,
          Part001.formSchema is_email v = [] <->
          (2 <= List.length (Part001.full_name v))%nat
          /\ Part001.country v <> [] /\ Part001.role v <> []
          /\ Part001.subject v <> []
          /\ is_email (Part001.email v) = true
          /\ e164 (Part001.whatsapp_numer v) = true
          /\ Part001.maths_students v <> []
          /\ Part001.informatics_students v <> []
          /\ Part001.maths_team_leaders v <> []
          /\ Part001.informatics_team_leaders v <> [])
    /\ (forall v,
          Register.formSchema is_email v = [] <->
          (3 <= List.length (Register.full_name v))%nat
          /\ Register.country v <> [] /\ Register.role v <> []
          /\ is_email (Register.email v) = true
          /\ Register.phone_number v <> []
          /\ Register.students_coming v <> []).
Proof.
  intros is_email. repeat apply conj; intros v;
    unfold Part000.formSchema, Part001.formSchema, Register.formSchema;
    rewrite !app_nil_iff, !z_min_1_nil, z_min_nil, z_check_nil,
      ?z_regex_nil, ?whatsapp_regex_e164;
    tauto.
Qed.

(** ** Loading the option lists *)

(** X7: a loader writes to its own list only.  Whatever the answer and
    whenever it arrives, the form (values and errors) and the other lists
    of the component are as they were; in register.tsx the client flag is
    kept too. *)
Theorem loaders_touch_only_their_list :
  forall (net : fetch_outcome),
    (forall w,
       let c := comp (exec (Part000.fetchCountries net) w) in
       Part000.form_state c = Part000.form_state (comp w)
       /\ Part000.roles c = Part000.roles (comp w))
    /\ (forall w,
          let c := comp (exec (Part000.fetchRoles net) w) in
          Part000.form_state c = Part000.form_state (comp w)
          /\ Part000.countries c = Part000.countries (comp w))
    /\ (forall api w,
          let c := comp (exec (Part001.fetchCountries api net) w) in
          Part001.form_state c = Part001.form_state (comp w)
          /\ Part001.roles c = Part001.roles (comp w)
          /\ Part001.subjects c = Part001.subjects (comp w))
    /\ (forall api w,
          let c := comp (exec (Part001.fetchRoles api net) w) in
          Part001.form_state c = Part001.form_state (comp w)
          /\ Part001.countries c = Part001.countries (comp w)
          /\ Part001.subjects c = Part001.subjects (comp w))
    /\ (forall api w,
          let c := comp (exec (Part001.fetchSubjects api net) w) in
          Part001.form_state c = Part001.form_state (comp w)
          /\ Part001.countries c = Part001.countries (comp w)
          /\ Part001.roles c = Part001.roles (comp w))
    /\ (forall w,
          let c := comp (exec (Register.fetchCountries net) w) in
          Register.form_state c = Register.form_state (comp w)
          /\ Register.isClient c = Register.isClient (comp w)).
Proof.
  intros net. repeat apply conj; intros; subst c; unfold exec;
    step_loader; cbn [snd after_load comp];
    destruct (load_data net); repeat split.
Qed.

(** X9: a loader stores the body of a success answer as it is, without
    looking at its shape, and says nothing: no notification, no console
    line. *)
Theorem load_success_stores_body :
  forall (r : response) (d : value),
    ok r = true -> payload r = Json d ->
    (forall w,
       let w' := exec (Part000.fetchCountries (Resolved r)) w in
       Part000.countries (comp w') = d
       /\ toasts w' = toasts w /\ console w' = console w)
    /\ (forall w,
          let w' := exec (Part000.fetchRoles (Resolved r)) w in
          Part000.roles (comp w') = d
          /\ toasts w' = toasts w /\ console w' = console w)
    /\ (forall api w,
          let w' := exec (Part001.fetchCountries api (Resolved r)) w in
          Part001.countries (comp w') = d
          /\ toasts w' = toasts w /\ console w' = console w)
    /\ (forall api w,
          let w' := exec (Part001.fetchRoles api (Resolved r)) w in
          Part001.roles (comp w') = d
          /\ toasts w' = toasts w /\ console w' = console w)
    /\ (forall api w,
          let w' := exec (Part001.fetchSubjects api (Resolved r)) w in
          Part001.subjects (comp w') = d
          /\ toasts w' = toasts w /\ console w' = console w)
    /\ (forall w,
          let w' := exec (Register.fetchCountries (Resolved r)) w in
          Register.countries (comp w') = d
          /\ toasts w' = toasts w /\ console w' = console w).
Proof.
  intros r d Hok Hbody.
  unfold Part000.fetchCountries, Part000.fetchRoles, Part001.fetchCountries,
    Part001.fetchRoles, Part001.fetchSubjects, Register.fetchCountries.
  repeat apply conj; intros; run_monad; rewrite Hok; cbn [negb];
    rewrite Hbody; repeat split.
Qed.

Lemma load_success_stores_body_witness :
  Part000.roles (comp (exec (Part000.fetchRoles not_a_list) Part000.initial))
  = VObj [(str "detail", VStr (str "Not found."))]
  /\ toasts (exec (Part000.fetchRoles not_a_list) Part000.initial) = [].
Proof.
  destruct (@load_success_stores_body
              {| status := 200;
                 payload := Json (VObj [(str "detail",
                                         VStr (str "Not found."))]) |}
              (VObj [(str "detail", VStr (str "Not found."))])
              eq_refl eq_refl) as (_ & H & _).
  destruct (H Part000.initial) as (A & B & _).
  split; [exact A | exact B].
Defined.

Example decimal_examples :
  List.map decimal [0; 7; 10; 305; 9007199254740991]%N
  = [str "0"; str "7"; str "10"; str "305"; str "9007199254740991"].
Proof. vm_compute. reflexivity. Qed.

Example toString_examples :
  List.map toString
    [VNum (Int (-42)); VStr (str "7"); VBool true; VNull;
     VArr [VNum (Int 1); VNull; VArr [VStr (str "a"); VNum (Int 2)]];
     VObj [(str "id", VNum (Int 1))]; VObj [(str "toString", VNum (Int 1))]]
  = [Some (str "-42"); Some (str "7"); Some (str "true"); None;
     Some (str "1,,a,2"); Some (str "[object Object]"); None].
Proof. vm_compute. reflexivity. Qed.

(** ** Decimal digits and [parseInt] *)

Lemma decimal_digit_cases (c : code_unit) :
  in_range 48 57 c = true ->
  In c [48; 49; 50; 51; 52; 53; 54; 55; 56; 57]%N.
Proof.
  unfold in_range. intros H. apply andb_true_iff in H as [A B].
  apply N.leb_le in A. apply N.leb_le in B. simpl.
  assert (c = 48 \/ c = 49 \/ c = 50 \/ c = 51 \/ c = 52 \/ c = 53 \/ c = 54
          \/ c = 55 \/ c = 56 \/ c = 57)%N by lia.
  intuition auto.
Qed.

Ltac digit_cases H :=
  apply decimal_digit_cases in H; simpl in H;
  repeat (destruct H as [<- | H]; [|]); [..| contradiction].

Lemma decimal_digit_facts (c : code_unit) :
  in_range 48 57 c = true ->
  is_white_space c = false /\ (c =? 45)%N = false /\ (c =? 43)%N = false
  /\ radix_digit 10 c = Some (c - 48)%N.
Proof.
  intros H. digit_cases H; repeat split; reflexivity.
Qed.

Lemma in_range_digit (d : N) :
  (d < 10)%N -> in_range 48 57 (48 + d) = true.
Proof.
  intros H. unfold in_range. apply andb_true_iff.
  split; apply N.leb_le; lia.
Qed.

Lemma math_int_snoc (R : N) (ds : list N) (d : N) :
  math_int R (ds ++ [d]) = (math_int R ds * R + d)%N.
Proof. unfold math_int. rewrite fold_left_app. reflexivity. Qed.

Lemma decimal_digits_spec (fuel : nat) :
  forall (n : N) (acc : js_string),
    (n < 2 ^ N.of_nat fuel)%N -> fuel <> O ->
    exists ds,
      decimal_digits fuel n acc = ds ++ acc
      /\ ds <> []
      /\ forallb (in_range 48 57) ds = true
      /\ math_int 10 (List.map (fun c => c - 48)%N ds) = n
      /\ (hd 0%N ds = 48%N -> ds = [48%N]).
Proof.
  induction fuel as [|fuel IH]; intros n acc Hn Hf; [congruence|].
  cbn [decimal_digits]. destruct (N.ltb_spec n 10) as [Hs | Hl].
  - exists [(48 + n mod 10)%N]. rewrite N.mod_small by assumption.
    split; [reflexivity | split; [discriminate | split; [| split]]].
    + cbn [forallb]. rewrite in_range_digit by assumption. reflexivity.
    + unfold math_int. cbn [List.map fold_left]. lia.
    + cbn [hd]. intros E. assert (n = 0%N) by lia. subst n. reflexivity.
  - assert (Hf' : fuel <> O).
    { intros ->. cbn in Hn. lia. }
    assert (Hd : (n / 10 < 2 ^ N.of_nat fuel)%N).
    { apply N.Div0.div_lt_upper_bound.
      rewrite Nat2N.inj_succ, N.pow_succ_r' in Hn. lia. }
    destruct (IH (n / 10)%N ((48 + n mod 10)%N :: acc) Hd Hf')
      as (ds & E & Hne & Hall & Hval & Hhd).
    exists (ds ++ [(48 + n mod 10)%N]).
    assert (Hm : (n mod 10 < 10)%N) by (apply N.mod_lt; lia).
    split; [| split; [| split; [| split]]].
    + rewrite E, <- app_assoc. reflexivity.
    + destruct ds; discriminate.
    + rewrite forallb_app. apply andb_true_iff. split; [exact Hall|].
      cbn [forallb]. rewrite in_range_digit by assumption. reflexivity.
    + unfold js_string, code_unit in *.
      rewrite map_app. cbn [List.map]. rewrite math_int_snoc, Hval.
      pose proof (N.div_mod n 10) as Hdm.
      generalize dependent (n mod 10)%N. generalize dependent (n / 10)%N.
      intros. lia.
    + destruct ds as [|c ds]; [congruence|]. cbn [hd app]. intros Hc.
      specialize (Hhd Hc). injection Hhd as Hds. subst ds.
      unfold math_int in Hval. cbn [List.map fold_left] in Hval.
      assert (Hz : (n / 10 = 0)%N) by lia.
      apply N.div_small_iff in Hz; lia.
Qed.

Lemma decimal_spec (n : N) :
  exists ds,
    decimal n = ds
    /\ ds <> []
    /\ forallb (in_range 48 57) ds = true
    /\ math_int 10 (List.map (fun c => c - 48)%N ds) = n
    /\ (hd 0%N ds = 48%N -> ds = [48%N]).
Proof.
  unfold decimal.
  destruct (@decimal_digits_spec (S (N.to_nat (N.size n))) n [])
    as (ds & E & H); [|discriminate|].
  - rewrite Nat2N.inj_succ, N2Nat.id, N.pow_succ_r'.
    pose proof (N.size_gt n). lia.
  - exists ds. rewrite E, app_nil_r. auto.
Qed.

Lemma non_digit_stops (c : code_unit) :
  in_range 48 57 c = false -> radix_digit 10 c = None.
Proof.
  intros H. unfold radix_digit, digit_value. rewrite H.
  unfold in_range.
  destruct (N.leb_spec 97 c), (N.leb_spec c 122); cbn [andb].
  - destruct (N.ltb_spec (c - 87) 10); [lia | reflexivity].
  - destruct (N.leb_spec 65 c), (N.leb_spec c 90); cbn [andb];
      try reflexivity; lia.
  - destruct (N.leb_spec 65 c), (N.leb_spec c 90); cbn [andb];
      try reflexivity.
    destruct (N.ltb_spec (c - 55) 10); [lia | reflexivity].
  - destruct (N.leb_spec 65 c), (N.leb_spec c 90); cbn [andb];
      try reflexivity; lia.
Qed.

Lemma number_ends_stops (rest : js_string) :
  number_ends rest = true -> take_digits 10 rest = [].
Proof.
  destruct rest as [|c rest]; [reflexivity|]. cbn [number_ends take_digits].
  intros H. apply andb_true_iff in H as [H _].
  apply andb_true_iff in H as [H _]. apply negb_true_iff in H.
  rewrite non_digit_stops by assumption. reflexivity.
Qed.

Lemma take_digits_decimal (ds rest : js_string) :
  forallb (in_range 48 57) ds = true -> number_ends rest = true ->
  take_digits 10 (ds ++ rest) = List.map (fun c => c - 48)%N ds.
Proof.
  intros Hall Hrest. induction ds as [|c ds IH]; cbn [app List.map].
  - apply number_ends_stops. assumption.
  - cbn [forallb] in Hall. apply andb_true_iff in Hall as [Hc Hall].
    cbn [take_digits].
    destruct (decimal_digit_facts c Hc) as (_ & _ & _ & ->).
    rewrite IH by assumption. reflexivity.
Qed.

(** [parseInt] reads back a run of decimal digits without a spare leading
    zero, whatever follows it. *)
Lemma parseInt_digits (ds rest : js_string) :
  ds <> [] -> forallb (in_range 48 57) ds = true ->
  (hd 0%N ds = 48%N -> ds = [48%N]) ->
  number_ends rest = true ->
  parseInt (ds ++ rest)
  = Int (Z.of_N (math_int 10 (List.map (fun c => c - 48)%N ds)))
  /\ parseInt (45%N :: ds ++ rest)
     = Int (- Z.of_N (math_int 10 (List.map (fun c => c - 48)%N ds))).
Proof.
  intros Hne Hall Hzero Hrest.
  assert (Htake := take_digits_decimal ds rest Hall Hrest).
  destruct ds as [|c ds]; [congruence|].
  cbn [forallb] in Hall. apply andb_true_iff in Hall as [Hc Hall].
  destruct (decimal_digit_facts c Hc) as (Hw & Hm & Hp & Hr).
  assert (Hprefix : strip_prefix ((c :: ds) ++ rest)
                    = (10%N, (c :: ds) ++ rest)).
  { cbn [app]. unfold strip_prefix.
    destruct (ds ++ rest) as [|c1 t] eqn:E; [reflexivity|].
    destruct (N.eqb_spec c 48) as [-> | Hc0]; [|reflexivity].
    specialize (Hzero eq_refl). injection Hzero as ->.
    cbn [app] in E. subst rest. cbn [number_ends] in Hrest.
    apply andb_true_iff in Hrest as [Hrest HX].
    apply andb_true_iff in Hrest as [_ Hx].
    apply negb_true_iff in Hx. apply negb_true_iff in HX.
    rewrite Hx, HX. reflexivity. }
  assert (Hsign : strip_sign ((c :: ds) ++ rest) = (1%Z, (c :: ds) ++ rest)).
  { cbn [app]. unfold strip_sign. rewrite Hm, Hp. reflexivity. }
  split.
  - unfold parseInt. cbn [app trim_start]. rewrite Hw.
    change (c :: ds ++ rest) with ((c :: ds) ++ rest).
    rewrite Hsign, Hprefix, Htake.
    cbn [List.map]. rewrite Z.mul_1_l. reflexivity.
  - unfold parseInt. cbn [trim_start].
    change (is_white_space 45%N) with false. cbv iota.
    unfold strip_sign. change (45 =? 45)%N with true. cbv iota.
    rewrite Hprefix, Htake. cbn [List.map].
    f_equal; lia.
Qed.

Lemma parseInt_number_toString (z : Z) (rest : js_string) :
  number_ends rest = true ->
  parseInt (number_toString (Int z) ++ rest) = Int z.
Proof.
  intros Hrest. unfold number_toString.
  destruct (decimal_spec (Z.abs_N z)) as (ds & -> & Hne & Hall & Hval & Hhd).
  destruct (parseInt_digits rest Hne Hall Hhd Hrest) as [Hpos Hneg].
  rewrite Hval, N2Z.inj_abs_N in Hpos, Hneg.
  destruct (Z.ltb_spec z 0).
  - cbn [app]. etransitivity; [exact Hneg|]. f_equal. lia.
  - etransitivity; [exact Hpos|]. f_equal. lia.
Qed.

(** X10: [parseInt] reads back what [toString] printed.  For every safe
    integer, the decimal string of the number, followed by nothing or by
    text that does not start with a decimal digit, [x] or [X], parses to
    the number itself. *)
Theorem parseInt_reads_back_toString :
  forall (z : Z) (rest : js_string),
    safe_integer z ->
    number_ends rest = true ->
    parseInt (number_toString (Int z) ++ rest) = Int z.
Proof.
  intros z rest _ Hrest. apply parseInt_number_toString. assumption.
Qed.

Lemma parseInt_reads_back_toString_witness :
  parseInt (number_toString (Int (-305)) ++ str " students") = Int (-305).
Proof.
  apply parseInt_reads_back_toString.
  - unfold safe_integer. vm_compute. discriminate.
  - reflexivity.
Defined.

(** ** The items of the selects *)

Lemma toString_int (z : Z) :
  toString (VNum (Int z)) = Some (number_toString (Int z)).
Proof. reflexivity. Qed.

Lemma reference_item_typed (n : Z) (s : js_string) (x : value) :
  reference_option n s x ->
  reference_item optional_id_toString x = Some (option_item n s)
  /\ reference_item id_toString x = Some (option_item n s).
Proof.
  intros [Hid Hname].
  unfold reference_item, optional_id_toString, id_toString.
  rewrite Hid, Hname.
  destruct x; try discriminate Hid; split; reflexivity.
Qed.

Lemma map_items_typed (l : list (Z * js_string)) (es : list value) :
  Forall2 (fun p x => reference_option (fst p) (snd p) x) l es ->
  map_items (reference_item optional_id_toString) es
  = Some (List.map (fun p => option_item (fst p) (snd p)) l)
  /\ map_items (reference_item id_toString) es
     = Some (List.map (fun p => option_item (fst p) (snd p)) l).
Proof.
  induction 1 as [|p x l es Hx _ [IH1 IH2]]; [split; reflexivity|].
  destruct (reference_item_typed Hx) as [E1 E2].
  cbn [map_items List.map]. rewrite E1, E2, IH1, IH2. split; reflexivity.
Qed.

(** X11: a list of records [{ id, name }] with safe integer ids and
    string names is rendered, in every select fed by a loaded list, as one
    item per record, in the order of the list, with the id as key, the
    decimal string of the id as value and the name as label. *)
Theorem well_typed_list_items :
  forall (l : list (Z * js_string)) (es : list value),
    Forall2 (fun p x => reference_option (fst p) (snd p) x) l es ->
    Forall (fun p => safe_integer (fst p)) l ->
    let items := List.map (fun p => option_item (fst p) (snd p)) l in
    (forall st, Part000.countries st = VArr es ->
                Part000Select.country_items st = Some items)
    /\ (forall st, Part000.roles st = VArr es ->
                   Part000Select.role_items st = Some items)
    /\ (forall st, Part001.countries st = VArr es ->
                   Part001Select.country_items st = Some items)
    /\ (forall st, Part001.roles st = VArr es ->
                   Part001Select.role_items st = Some items)
    /\ (forall st, Part001.subjects st = VArr es ->
                   Part001Select.subject_items st = Some items)
    /\ (forall st, Register.isClient st = true ->
                   Register.countries st = VArr es ->
                   RegisterSelect.country_items st = Some items).
Proof.
  intros l es H _ items. destruct (map_items_typed H) as [E1 E2].
  unfold Part000Select.country_items, Part000Select.role_items,
    Part001Select.country_items, Part001Select.role_items,
    Part001Select.subject_items, RegisterSelect.country_items.
  repeat apply conj; intros st; [..| intros Hc; rewrite Hc];
    intros E; rewrite E; assumption.
Qed.

Lemma well_typed_list_items_witness :
  Part000Select.country_items
    (Part000.with_countries
       (VArr [VObj [(str "id", VNum (Int 1));
                    (str "name", VStr (str "Uzbekistan"))]])
       (comp Part000.initial))
  = Some [{| item_key := VNum (Int 1); item_value := VStr (str "1");
             item_children := VStr (str "Uzbekistan") |}].
Proof.
  assert (H : Forall2 (fun p x => reference_option (fst p) (snd p) x)
                [(1%Z, str "Uzbekistan")]
                [VObj [(str "id", VNum (Int 1));
                       (str "name", VStr (str "Uzbekistan"))]])
    by (repeat constructor).
  assert (S : Forall (fun p : Z * js_string => safe_integer (fst p))
                [(1%Z, str "Uzbekistan")])
    by (repeat constructor; unfold safe_integer; vm_compute; discriminate).
  apply (proj1 (well_typed_list_items H S)). reflexivity.
Defined.

(** X12: the id survives the select.  When the country (in part_000 also
    the role) of the form is the value of the item rendered for a record
    with the safe integer id [n], the payload of part_000 and of
    register.tsx carries the integer [n]; the payload of part_001 carries
    the decimal string itself. *)
Theorem selected_id_reaches_payload :
  forall (n : Z) (s : js_string),
    safe_integer n ->
    (forall v, VStr (Part000.country v) = item_value (option_item n s) ->
               get (Part000.formData v) (str "country") = Some (VNum (Int n)))
    /\ (forall v, VStr (Part000.role v) = item_value (option_item n s) ->
                  get (Part000.formData v) (str "role") = Some (VNum (Int n)))
    /\ (forall v, VStr (Register.country v) = item_value (option_item n s) ->
                  get (Register.formData v) (str "country")
                  = Some (VNum (Int n)))
    /\ (forall v, VStr (Part001.country v) = item_value (option_item n s) ->
                  get (Part001.formData v) (str "country")
                  = Some (VStr (number_toString (Int n)))).
Proof.
  intros n s _.
  assert (P : parseInt (number_toString (Int n)) = Int n).
  { rewrite <- (app_nil_r (number_toString (Int n))).
    apply parseInt_number_toString. reflexivity. }
  repeat apply conj; intros v Hv; cbn [item_value option_item] in Hv;
    injection Hv as Hv.
  - change (get (Part000.formData v) (str "country"))
      with (Some (VNum (parseInt (Part000.country v)))).
    rewrite Hv. exact (f_equal (fun x => Some (VNum x)) P).
  - change (get (Part000.formData v) (str "role"))
      with (Some (VNum (parseInt (Part000.role v)))).
    rewrite Hv. exact (f_equal (fun x => Some (VNum x)) P).
  - change (get (Register.formData v) (str "country"))
      with (Some (VNum (parseInt (Register.country v)))).
    rewrite Hv. exact (f_equal (fun x => Some (VNum x)) P).
  - change (get (Part001.formData v) (str "country"))
      with (Some (VStr (Part001.country v))).
    rewrite Hv. reflexivity.
Qed.

Lemma selected_id_reaches_payload_witness :
  get (Part000.formData sample000) (str "country") = Some (VNum (Int 3)).
Proof.
  assert (S : safe_integer 3) by (unfold safe_integer; vm_compute; discriminate).
  apply (proj1 (selected_id_reaches_payload (str "Peru") S) sample000).
  reflexivity.
Defined.

Lemma load_data_success (r : response) (d : value) :
  ok r = true -> payload r = Json d -> load_data (Resolved r) = Some d.
Proof. intros Hok Hbody. unfold load_data. rewrite Hok, Hbody. reflexivity. Qed.

(** X13: a success answer whose body is no array.  The country select of
    every variant, guarded by [Array.isArray], then shows no item; the
    role selects of part_000 and part_001 and the subject select of
    part_001 call [map] on the body unguarded, and rendering throws. *)
Theorem non_list_body_rendering :
  forall (r : response) (d : value),
    ok r = true -> payload r = Json d -> is_array d = false ->
    (forall w,
       Part000Select.country_items
         (comp (exec (Part000.fetchCountries (Resolved r)) w)) = Some [])
    /\ (forall w,
          Part000Select.role_items
            (comp (exec (Part000.fetchRoles (Resolved r)) w)) = None)
    /\ (forall api w,
          Part001Select.country_items
            (comp (exec (Part001.fetchCountries api (Resolved r)) w)) = Some [])
    /\ (forall api w,
          Part001Select.role_items
            (comp (exec (Part001.fetchRoles api (Resolved r)) w)) = None)
    /\ (forall api w,
          Part001Select.subject_items
            (comp (exec (Part001.fetchSubjects api (Resolved r)) w)) = None)
    /\ (forall w,
          RegisterSelect.country_items
            (comp (exec (Register.fetchCountries (Resolved r)) w)) = Some []).
Proof.
  intros r d Hok Hbody Harr.
  pose proof (load_data_success r Hok Hbody) as Hload.
  repeat apply conj; intros; unfold exec; step_loader;
    cbn [snd after_load comp]; rewrite Hload;
    unfold Part000Select.country_items, Part000Select.role_items,
      Part001Select.country_items, Part001Select.role_items,
      Part001Select.subject_items, RegisterSelect.country_items;
    cbn [Part000.with_countries Part000.with_roles Part001.with_countries
         Part001.with_roles Part001.with_subjects Register.with_countries
         Part000.countries Part000.roles Part001.countries Part001.roles
         Part001.subjects Register.countries Register.isClient];
    try (destruct (Register.isClient (comp w)); [|reflexivity]);
    destruct d; try discriminate Harr; reflexivity.
Qed.

Lemma non_list_body_rendering_witness :
  Part000Select.role_items
    (comp (exec (Part000.fetchRoles not_a_list) Part000.initial)) = None
  /\ Part000Select.country_items
       (comp (exec (Part000.fetchCountries not_a_list) Part000.initial))
     = Some [].
Proof.
  destruct (@non_list_body_rendering
              {| status := 200;
                 payload := Json (VObj [(str "detail",
                                         VStr (str "Not found."))]) |}
              (VObj [(str "detail", VStr (str "Not found."))])
              eq_refl eq_refl eq_refl) as (A & B & _).
  split; [apply B | apply A].
Defined.

Lemma map_items_none (f : value -> option select_item) (x : value)
  (es1 es2 : list value) :
  f x = None -> map_items f (es1 ++ x :: es2) = None.
Proof.
  intros H. induction es1 as [|a es1 IH]; cbn [app map_items].
  - rewrite H. reflexivity.
  - rewrite IH. destruct (f a); reflexivity.
Qed.

(** X15: a list element that has no [id].  In part_000 and part_001 the
    optional chain [x?.id?.toString()] yields [undefined] and the item is
    built, with [undefined] as key and value; in register.tsx, which calls
    [x.id.toString()], rendering the country select throws.  An element
    that is [null] makes every select throw, the key being read without
    optional chaining. *)
Theorem list_element_without_id :
  forall (x name : value) (es1 es2 : list value),
    get x (str "id") = Some VUndefined ->
    get x (str "name") = Some name ->
    reference_item optional_id_toString x
    = Some {| item_key := VUndefined; item_value := VUndefined;
              item_children := name |}
    /\ (forall st,
          Register.isClient st = true ->
          Register.countries st = VArr (es1 ++ x :: es2) ->
          RegisterSelect.country_items st = None)
    /\ (forall st,
          Part000.countries st = VArr (es1 ++ VNull :: es2) ->
          Part000Select.country_items st = None)
    /\ (forall st,
          Part001.countries st = VArr (es1 ++ VNull :: es2) ->
          Part001Select.country_items st = None)
    /\ (forall st,
          Register.isClient st = true ->
          Register.countries st = VArr (es1 ++ VNull :: es2) ->
          RegisterSelect.country_items st = None).
Proof.
  intros x name es1 es2 Hid Hname.
  assert (Hx : is_nullish x = false) by (destruct x; try discriminate Hid;
                                         reflexivity).
  repeat apply conj.
  - unfold reference_item, optional_id_toString. rewrite Hx, Hid, Hname.
    reflexivity.
  - intros st Hc E. unfold RegisterSelect.country_items. rewrite Hc, E.
    apply map_items_none. unfold reference_item, id_toString.
    rewrite Hid. reflexivity.
  - intros st E. unfold Part000Select.country_items. rewrite E.
    apply map_items_none. reflexivity.
  - intros st E. unfold Part001Select.country_items. rewrite E.
    apply map_items_none. reflexivity.
  - intros st Hc E. unfold RegisterSelect.country_items. rewrite Hc, E.
    apply map_items_none. reflexivity.
Qed.

Lemma list_element_without_id_witness :
  reference_item optional_id_toString
    (VObj [(str "name", VStr (str "Uzbekistan"))])
  = Some {| item_key := VUndefined; item_value := VUndefined;
            item_children := VStr (str "Uzbekistan") |}
  /\ reference_item id_toString (VObj [(str "name", VStr (str "Uzbekistan"))])
     = None.
Proof.
  split.
  - apply (@list_element_without_id
             (VObj [(str "name", VStr (str "Uzbekistan"))])
             (VStr (str "Uzbekistan")) [] [] eq_refl eq_refl).
  - reflexivity.
Defined.

(** ** One message per field *)

Lemma paths_concat (cs : list (list issue)) (ps : list js_string) :
  Forall2 (fun c p => List.map fst c = [] \/ List.map fst c = [p]) cs ps ->
  incl (List.map fst (List.concat cs)) ps
  /\ (NoDup ps -> NoDup (List.map fst (List.concat cs))).
Proof.
  induction 1 as [|c p cs ps Hc _ [IHi IHn]]; cbn [List.concat].
  - split; [apply incl_refl | intros; constructor].
  - unfold issue in *. rewrite map_app. destruct Hc as [-> | ->]; cbn [app].
    + split.
      * apply incl_tl. assumption.
      * intros N. apply IHn. inversion N; assumption.
    + split.
      * apply incl_cons; [left; reflexivity | apply incl_tl; assumption].
      * intros N. inversion N; subst. constructor; auto.
Qed.

Lemma z_min_paths n message path (s : js_string) :
  List.map fst (z_min n message path s) = []
  \/ List.map fst (z_min n message path s) = [str path].
Proof. unfold z_min. destruct (_ <? _)%nat; auto. Qed.

Lemma z_regex_paths r message path (s : js_string) :
  List.map fst (z_regex r message path s) = []
  \/ List.map fst (z_regex r message path s) = [str path].
Proof. unfold z_regex. destruct (regex_test r s); auto. Qed.

Lemma z_check_paths p message path (s : js_string) :
  List.map fst (z_check p message path s) = []
  \/ List.map fst (z_check p message path s) = [str path].
Proof. unfold z_check. destruct (p s); auto. Qed.

Ltac distinct_names :=
  repeat constructor; vm_compute; intuition discriminate.

(** X16: whatever the values, a schema reports at most one issue per
    field, and only about the fields of its form: a field never shows two
    messages. *)
Theorem one_issue_per_field :
  forall (is_email : js_string -> bool),
    (forall v,
       NoDup (List.map fst (Part000.formSchema is_email v))
       /\ incl (List.map fst (Part000.formSchema is_email v))
            [str "full_name"; str "country"; str "role"; str "email";
             str "whatsapp_number"; str "number_of_students"])
    /\ (forall v,
          NoDup (List.map fst (Part001.formSchema is_email v))
          /\ incl (List.map fst (Part001.formSchema is_email v))
               [str "full_name"; str "country"; str "role"; str "subject";
                str "email"; str "whatsapp_numer"; str "maths_students";
                str "informatics_students"; str "maths_team_leaders";
                str "informatics_team_leaders"])
    /\ (forall v,
          NoDup (List.map fst (Register.formSchema is_email v))
          /\ incl (List.map fst (Register.formSchema is_email v))
               [str "full_name"; str "country"; str "role"; str "email";
                str "phone_number"; str "students_coming"]).
Proof.
  intros is_email. repeat apply conj; intros v.
  - assert (E : Part000.formSchema is_email v
                = List.concat [ z_min 3 "Full name must be at least 3 characters."
                             "full_name" (Part000.full_name v);
                           z_min 1 "Please select a country." "country"
                             (Part000.country v);
                           z_min 1 "Please select a role." "role"
                             (Part000.role v);
                           z_check is_email
                             "Please enter a valid email address." "email"
                             (Part000.email v);
                           z_regex whatsapp_regex
                             "Please enter a valid WhatsApp number starting with + (e.g., +1234567890)"
                             "whatsapp_number" (Part000.whatsapp_number v);
                           z_min 1 "Please select number of students."
                             "number_of_students"
                             (Part000.number_of_students v) ])
      by (cbn [List.concat]; rewrite app_nil_r; reflexivity).
    rewrite E.
    match goal with
    | |- NoDup (List.map fst (List.concat ?cs)) /\ incl _ ?ps =>
        destruct (@paths_concat cs ps) as [I N]
    end.
    + repeat (apply Forall2_cons;
                [first [apply z_min_paths | apply z_check_paths
                       | apply z_regex_paths] |]).
      apply Forall2_nil.
    + split; [apply N; distinct_names | exact I].
  - assert (E : Part001.formSchema is_email v
                = List.concat [ z_min 2 "Full name must be at least 2 characters."
                             "full_name" (Part001.full_name v);
                           z_min 1 "Please select a country." "country"
                             (Part001.country v);
                           z_min 1 "Please select a role." "role"
                             (Part001.role v);
                           z_min 1 "Please select a subject." "subject"
                             (Part001.subject v);
                           z_check is_email
                             "Please enter a valid email address." "email"
                             (Part001.email v);
                           z_regex whatsapp_regex
                             "Please enter a valid WhatsApp number starting with + (e.g., +1234567890)"
                             "whatsapp_numer" (Part001.whatsapp_numer v);
                           z_min 1 "Please select number of math students."
                             "maths_students" (Part001.maths_students v);
                           z_min 1
                             "Please select number of informatics students."
                             "informatics_students"
                             (Part001.informatics_students v);
                           z_min 1
                             "Please select number of math team leaders."
                             "maths_team_leaders"
                             (Part001.maths_team_leaders v);
                           z_min 1
                             "Please select number of informatics team leaders."
                             "informatics_team_leaders"
                             (Part001.informatics_team_leaders v) ])
      by (cbn [List.concat]; rewrite app_nil_r; reflexivity).
    rewrite E.
    match goal with
    | |- NoDup (List.map fst (List.concat ?cs)) /\ incl _ ?ps =>
        destruct (@paths_concat cs ps) as [I N]
    end.
    + repeat (apply Forall2_cons;
                [first [apply z_min_paths | apply z_check_paths
                       | apply z_regex_paths] |]).
      apply Forall2_nil.
    + split; [apply N; distinct_names | exact I].
  - assert (E : Register.formSchema is_email v
                = List.concat [ z_min 3 "Full name must be at least 3 characters."
                             "full_name" (Register.full_name v);
                           z_min 1 "Please select a country." "country"
                             (Register.country v);
                           z_min 1 "Please select a role." "role"
                             (Register.role v);
                           z_check is_email
                             "Please enter a valid email address." "email"
                             (Register.email v);
                           z_min 1 "Please enter a valid phone number."
                             "phone_number" (Register.phone_number v);
                           z_min 1 "Please select number of students."
                             "students_coming" (Register.students_coming v) ])
      by (cbn [List.concat]; rewrite app_nil_r; reflexivity).
    rewrite E.
    match goal with
    | |- NoDup (List.map fst (List.concat ?cs)) /\ incl _ ?ps =>
        destruct (@paths_concat cs ps) as [I N]
    end.
    + repeat (apply Forall2_cons;
                [first [apply z_min_paths | apply z_check_paths
                       | apply z_regex_paths] |]).
      apply Forall2_nil.
    + split; [apply N; distinct_names | exact I].
Qed.

(** ** Notifications and console lines of the loaders *)

(** X19: a loader writes to the console exactly when it catches an
    exception, one line made of its label and the exception: the rejection
    of the request, its own [Error("Failed to fetch ...")] on a
    non-success status, or the syntax error of the body.  A load that
    succeeds writes nothing. *)
Theorem loader_console_lines :
  forall (net : fetch_outcome),
    (forall w,
       console (exec (Part000.fetchCountries net) w)
       = console w ++ load_log net "Error fetching countries:"
                        "Failed to fetch countries")
    /\ (forall w,
          console (exec (Part000.fetchRoles net) w)
          = console w ++ load_log net "Error fetching roles:"
                           "Failed to fetch roles")
    /\ (forall api w,
          console (exec (Part001.fetchCountries api net) w)
          = console w ++ load_log net "Error fetching countries:"
                           "Failed to fetch countries")
    /\ (forall api w,
          console (exec (Part001.fetchRoles api net) w)
          = console w ++ load_log net "Error fetching roles:"
                           "Failed to fetch roles")
    /\ (forall api w,
          console (exec (Part001.fetchSubjects api net) w)
          = console w ++ load_log net "Error fetching subjects:"
                           "Failed to fetch subjects")
    /\ (forall w,
          console (exec (Register.fetchCountries net) w)
          = console w ++ load_log net "Error fetching countries:"
                           "Failed to fetch countries").
Proof.
  intros net.
  unfold Part000.fetchCountries, Part000.fetchRoles, Part001.fetchCountries,
    Part001.fetchRoles, Part001.fetchSubjects, Register.fetchCountries,
    load_log, load_exception.
  repeat apply conj; intros; split_outcome;
    cbn [console]; rewrite ?app_nil_r; reflexivity.
Qed.

(** X17: a submission the schema lets through leaves no error on display,
    whatever the answer of the network: the errors of an earlier refused
    attempt are cleared before the request leaves. *)
Theorem accepted_submit_clears_errors :
  forall (is_email : js_string -> bool) (net : fetch_outcome),
    (forall w,
       Part000.formSchema is_email (values (Part000.form_state (comp w))) = [] ->
       errors (Part000.form_state (comp (exec (Part000.submit is_email net) w)))
       = [])
    /\ (forall api w,
          Part001.formSchema is_email (values (Part001.form_state (comp w)))
          = [] ->
          errors (Part001.form_state
                    (comp (exec (Part001.submit api is_email net) w)))
          = [])
    /\ (forall w,
          Register.formSchema is_email (values (Register.form_state (comp w)))
          = [] ->
          errors (Register.form_state
                    (comp (exec (Register.submit is_email net) w)))
          = []).
Proof.
  intros is_email net. repeat apply conj.
  - intros w Hv. unfold Part000.submit. rewrite handleSubmit_run. cbv zeta.
    rewrite Hv. unfold Part000.onSubmit, js_or. split_outcome; reflexivity.
  - intros api w Hv. unfold Part001.submit. rewrite handleSubmit_run.
    cbv zeta. rewrite Hv. unfold Part001.onSubmit, js_or.
    split_outcome; reflexivity.
  - intros w Hv. unfold Register.submit. rewrite handleSubmit_run. cbv zeta.
    rewrite Hv. unfold Register.onSubmit, js_or. split_outcome; reflexivity.
Qed.

Lemma accepted_submit_clears_errors_witness :
  errors (Part000.form_state
            (comp (exec (Part000.submit ZodEmail.is_email server_error)
                     (with_form Part000.set_form
                        {| values := sample000;
                           errors := [(str "email", str "stale")] |}
                        Part000.initial))))
  = [].
Proof.
  destruct (accepted_submit_clears_errors ZodEmail.is_email server_error)
    as (H & _ & _).
  apply H. vm_compute. reflexivity.
Defined.

(** ** Mounting: loaders that run side by side *)

(** A complete run of a loader is its start followed by its going on. *)
Lemma part000_loader_split net (w : world Part000.state) :
  Part000.fetchCountries net w
  = (Part000.start Part000.Countries ;;;
     Part000.settle Part000.Countries net) w
  /\ Part000.fetchRoles net w
     = (Part000.start Part000.Roles ;;; Part000.settle Part000.Roles net) w.
Proof.
  unfold Part000.fetchCountries, Part000.fetchRoles, Part000.start,
    Part000.settle.
  split; split_outcome; reflexivity.
Qed.

Lemma part001_loader_split api net (w : world Part001.state) :
  Part001.fetchCountries api net w
  = (Part001.start api Part001.Countries ;;;
     Part001.settle Part001.Countries net) w
  /\ Part001.fetchRoles api net w
     = (Part001.start api Part001.Roles ;;;
        Part001.settle Part001.Roles net) w
  /\ Part001.fetchSubjects api net w
     = (Part001.start api Part001.Subjects ;;;
        Part001.settle Part001.Subjects net) w.
Proof.
  unfold Part001.fetchCountries, Part001.fetchRoles, Part001.fetchSubjects,
    Part001.start, Part001.settle.
  repeat split; split_outcome; reflexivity.
Qed.

Ltac settle_run :=
  unfold after_settle, apply_load, load_notice; split_outcome; cbn;
  first [ eexists; reflexivity
        | exists []; rewrite ?app_nil_r; reflexivity ].

Lemma part000_settle_run rs net (w : world Part000.state) :
  exists lines,
    Part000.settle rs net w
    = (Ok tt, after_settle (Part000.store rs) (Part000.notice rs) lines net w).
Proof.
  destruct rs; unfold Part000.settle, Part000.setCountries, Part000.setRoles,
    Part000.store, Part000.notice; settle_run.
Qed.

Lemma part001_settle_run rs net (w : world Part001.state) :
  exists lines,
    Part001.settle rs net w
    = (Ok tt, after_settle (Part001.store rs) (Part001.notice rs) lines net w).
Proof.
  destruct rs; unfold Part001.settle, Part001.setCountries, Part001.setRoles,
    Part001.setSubjects, Part001.store, Part001.notice; settle_run.
Qed.

Section Settling.
Variables (C R : Type).
Variable settle : R -> fetch_outcome -> M C unit.
Variable store : R -> value -> C -> C.
Variable notice : R -> string.
Variable nets : R -> fetch_outcome.

Hypothesis settle_run :
  forall rs net w,
    exists lines,
      settle rs net w = (Ok tt, after_settle (store rs) (notice rs) lines net w).

Hypothesis stores_commute :
  forall a b c,
    apply_load (store b) (nets b) (apply_load (store a) (nets a) c)
    = apply_load (store a) (nets a) (apply_load (store b) (nets b) c).

(** The loaders going on in the order [order]: the lists are written one
    after the other and the notices come in that order. *)
Lemma run_all_settle (order : list R) :
  forall w,
    exists lines,
      run_all (List.map (fun rs => settle rs (nets rs)) order) w
      = (Ok tt,
         {| comp := fold_left (fun c rs => apply_load (store rs) (nets rs) c)
                      order (comp w);
            toasts := toasts w ++
                      flat_map (fun rs => load_notice (nets rs) (notice rs))
                        order;
            requests := requests w;
            console := console w ++ lines |}).
Proof.
  induction order as [|rs order IH]; intros w.
  - exists []. destruct w. cbn. rewrite !app_nil_r. reflexivity.
  - cbn [List.map run_all]. unfold bind.
    destruct (settle_run rs (nets rs) w) as [l1 ->].
    destruct (IH (after_settle (store rs) (notice rs) l1 (nets rs) w))
      as [l2 ->].
    exists (l1 ++ l2). cbn [after_settle comp toasts requests console
                            fold_left flat_map].
    rewrite <- !app_assoc. reflexivity.
Qed.

Lemma settled_state_permutation (order order' : list R) :
  Permutation order order' ->
  forall c,
    fold_left (fun c rs => apply_load (store rs) (nets rs) c) order c
    = fold_left (fun c rs => apply_load (store rs) (nets rs) c) order' c.
Proof.
  induction 1 as [| x l l' _ IH | x y l | l l' l'' _ IH1 _ IH2]; intros c;
    cbn [fold_left].
  - reflexivity.
  - apply IH.
  - rewrite stores_commute. reflexivity.
  - rewrite IH1. apply IH2.
Qed.
End Settling.

Lemma part000_stores_commute (nets : Part000.resource -> fetch_outcome) a b c :
  apply_load (Part000.store b) (nets b) (apply_load (Part000.store a) (nets a) c)
  = apply_load (Part000.store a) (nets a)
      (apply_load (Part000.store b) (nets b) c).
Proof.
  unfold apply_load.
  destruct a, b; try reflexivity;
    destruct (load_data (nets _)), (load_data (nets _)); reflexivity.
Qed.

Lemma part001_stores_commute (nets : Part001.resource -> fetch_outcome) a b c :
  apply_load (Part001.store b) (nets b) (apply_load (Part001.store a) (nets a) c)
  = apply_load (Part001.store a) (nets a)
      (apply_load (Part001.store b) (nets b) c).
Proof.
  unfold apply_load.
  destruct a, b; try reflexivity;
    destruct (load_data (nets _)), (load_data (nets _)); reflexivity.
Qed.

(** The world a mount leaves. *)
Lemma part000_mount_run nets order (w : world Part000.state) :
  exists lines,
    exec (Part000.mount nets order) w
    = {| comp := fold_left (fun c rs =>
                              apply_load (Part000.store rs) (nets rs) c)
                   order (comp w);
         toasts := toasts w ++
                   flat_map (fun rs => load_notice (nets rs) (Part000.notice rs))
                     order;
         requests := requests w ++
                     [GET (Part000.baseUrl ++ str "api/countries/");
                      GET (Part000.baseUrl ++ str "api/roles/")];
         console := console w ++ lines |}.
Proof.
  unfold Part000.mount, Part000.start, exec, bind, send.
  match goal with
  | |- context [run_all _ ?w0] =>
      destruct (run_all_settle Part000.settle Part000.store Part000.notice
                  nets part000_settle_run order w0) as [lines ->]
  end.
  exists lines. cbn [snd comp toasts requests console].
  rewrite <- app_assoc. reflexivity.
Qed.

Lemma part001_mount_run api nets order (w : world Part001.state) :
  exists lines,
    exec (Part001.mount api nets order) w
    = {| comp := fold_left (fun c rs =>
                              apply_load (Part001.store rs) (nets rs) c)
                   order (comp w);
         toasts := toasts w ++
                   flat_map (fun rs => load_notice (nets rs) (Part001.notice rs))
                     order;
         requests := requests w ++
                     [GET (Part001.baseUrl api ++ str "api/countries/");
                      GET (Part001.baseUrl api ++ str "api/roles/");
                      GET (Part001.baseUrl api ++ str "api/subjects/")];
         console := console w ++ lines |}.
Proof.
  unfold Part001.mount, Part001.start, exec, bind, send.
  match goal with
  | |- context [run_all _ ?w0] =>
      destruct (run_all_settle Part001.settle Part001.store Part001.notice
                  nets part001_settle_run order w0) as [lines ->]
  end.
  exists lines. cbn [snd comp toasts requests console].
  rewrite <- !app_assoc. reflexivity.
Qed.

Lemma records_loaded (net : fetch_outcome) (l : list (Z * js_string)) :
  lists_records net l ->
  exists es,
    load_data net = Some (VArr es)
    /\ map_items (reference_item optional_id_toString) es
       = Some (option_items l)
    /\ map_items (reference_item id_toString) es = Some (option_items l).
Proof.
  intros (r & es & -> & Hok & Hbody & Hrec & _).
  exists es. destruct (map_items_typed Hrec) as [E1 E2].
  split; [apply load_data_success; assumption | split; assumption].
Qed.

Lemma part000_mounted_lists nets order (c : Part000.state) :
  Permutation order [Part000.Countries; Part000.Roles] ->
  let c' := fold_left (fun c rs => apply_load (Part000.store rs) (nets rs) c)
              order c in
  Part000.countries c' = loaded (nets Part000.Countries) (Part000.countries c)
  /\ Part000.roles c' = loaded (nets Part000.Roles) (Part000.roles c).
Proof.
  intros Hperm c'. subst c'.
  rewrite (settled_state_permutation Part000.store nets
             (part000_stores_commute nets) Hperm).
  cbn [fold_left Part000.store]. unfold apply_load, loaded.
  destruct (load_data (nets Part000.Countries)),
    (load_data (nets Part000.Roles)); split; reflexivity.
Qed.

Lemma part001_mounted_lists nets order (c : Part001.state) :
  Permutation order [Part001.Countries; Part001.Roles; Part001.Subjects] ->
  let c' := fold_left (fun c rs => apply_load (Part001.store rs) (nets rs) c)
              order c in
  Part001.countries c' = loaded (nets Part001.Countries) (Part001.countries c)
  /\ Part001.roles c' = loaded (nets Part001.Roles) (Part001.roles c)
  /\ Part001.subjects c'
     = loaded (nets Part001.Subjects) (Part001.subjects c).
Proof.
  intros Hperm c'. subst c'.
  rewrite (settled_state_permutation Part001.store nets
             (part001_stores_commute nets) Hperm).
  cbn [fold_left Part001.store]. unfold apply_load, loaded.
  destruct (load_data (nets Part001.Countries)),
    (load_data (nets Part001.Roles)), (load_data (nets Part001.Subjects));
    repeat split; reflexivity.
Qed.

Lemma loaded_records (net : fetch_outcome) (l : list (Z * js_string))
  (old : value) :
  lists_records net l ->
  exists es,
    loaded net old = VArr es
    /\ map_items (reference_item optional_id_toString) es
       = Some (option_items l)
    /\ map_items (reference_item id_toString) es = Some (option_items l).
Proof.
  intros H. destruct (records_loaded H) as (es & E & I1 & I2).
  exists es. unfold loaded. rewrite E. auto.
Qed.

(** C7, as the code has it: on initial display every variant issues one
    GET request to [<baseUrl>api/<resource>/] for each reference list it
    fetches, countries and roles in part_000 and part_001, subjects too in
    part_001, and countries only in register.tsx, whose roles are the two
    options written in the component; the requests leave in that order
    whatever the order in which the answers arrive.  Each list fetched
    holds the parsed body of a success answer, and when that body is the
    JSON array of records [{ id, name }] the select shows one item per
    record, in order, the id (its decimal string) as value and the name
    as label. *)
Theorem C7_option_loading :
  (forall nets order w,
     Permutation order [Part000.Countries; Part000.Roles] ->
     let w' := exec (Part000.mount nets order) w in
     requests w' =
       requests w ++ [GET (str "https://api.olympcentre.uz/api/countries/");
                      GET (str "https://api.olympcentre.uz/api/roles/")]
     /\ Part000.countries (comp w')
        = loaded (nets Part000.Countries) (Part000.countries (comp w))
     /\ Part000.roles (comp w')
        = loaded (nets Part000.Roles) (Part000.roles (comp w))
     /\ (forall l, lists_records (nets Part000.Countries) l ->
                   Part000Select.country_items (comp w')
                   = Some (option_items l))
     /\ (forall l, lists_records (nets Part000.Roles) l ->
                   Part000Select.role_items (comp w') = Some (option_items l)))
  /\ (forall api nets order w,
        Permutation order
          [Part001.Countries; Part001.Roles; Part001.Subjects] ->
        let w' := exec (Part001.mount api nets order) w in
        requests w' =
          requests w ++ [GET (Part001.baseUrl api ++ str "api/countries/");
                         GET (Part001.baseUrl api ++ str "api/roles/");
                         GET (Part001.baseUrl api ++ str "api/subjects/")]
        /\ Part001.countries (comp w')
           = loaded (nets Part001.Countries) (Part001.countries (comp w))
        /\ Part001.roles (comp w')
           = loaded (nets Part001.Roles) (Part001.roles (comp w))
        /\ Part001.subjects (comp w')
           = loaded (nets Part001.Subjects) (Part001.subjects (comp w))
        /\ (forall l, lists_records (nets Part001.Countries) l ->
                      Part001Select.country_items (comp w')
                      = Some (option_items l))
        /\ (forall l, lists_records (nets Part001.Roles) l ->
                      Part001Select.role_items (comp w')
                      = Some (option_items l))
        /\ (forall l, lists_records (nets Part001.Subjects) l ->
                      Part001Select.subject_items (comp w')
                      = Some (option_items l)))
  /\ (forall nc w,
        let w' := exec (Register.mount nc) w in
        requests w' =
          requests w ++ [GET (str "https://api.olympcentre.uz/api/countries/")]
        /\ Register.countries (comp w')
           = loaded nc (Register.countries (comp w))
        /\ (forall l, lists_records nc l ->
                      RegisterSelect.country_items (comp w')
                      = Some (option_items l)))
  /\ RegisterSelect.role_items
     = [ {| item_key := VStr (str "1"); item_value := VStr (str "Team Leader");
            item_children := VStr (str "Team Leader") |};
         {| item_key := VStr (str "2");
            item_value := VStr (str "Team Coordinator");
            item_children := VStr (str "Team Coordinator") |} ].
Proof.
  repeat apply conj; [| | | reflexivity].
  - intros nets order w Hperm w'. subst w'.
    destruct (part000_mount_run nets order w) as [lines ->].
    cbn [comp requests].
    destruct (part000_mounted_lists nets (comp w) Hperm) as [Ec Er].
    cbv zeta in Ec, Er. repeat apply conj; auto.
    + intros l H.
      destruct (loaded_records (Part000.countries (comp w)) H)
        as (es & E & I & _).
      unfold Part000Select.country_items. rewrite Ec, E. exact I.
    + intros l H.
      destruct (loaded_records (Part000.roles (comp w)) H)
        as (es & E & I & _).
      unfold Part000Select.role_items. rewrite Er, E. exact I.
  - intros api nets order w Hperm w'. subst w'.
    destruct (part001_mount_run api nets order w) as [lines ->].
    cbn [comp requests].
    destruct (part001_mounted_lists nets (comp w) Hperm) as (Ec & Er & Es).
    cbv zeta in Ec, Er, Es. repeat apply conj; auto.
    + intros l H.
      destruct (loaded_records (Part001.countries (comp w)) H)
        as (es & E & I & _).
      unfold Part001Select.country_items. rewrite Ec, E. exact I.
    + intros l H.
      destruct (loaded_records (Part001.roles (comp w)) H)
        as (es & E & I & _).
      unfold Part001Select.role_items. rewrite Er, E. exact I.
    + intros l H.
      destruct (loaded_records (Part001.subjects (comp w)) H)
        as (es & E & I & _).
      unfold Part001Select.subject_items. rewrite Es, E. exact I.
  - intros nc w w'. subst w'.
    unfold Register.mount, Register.effect_client, Register.effect_countries,
      Register.setIsClient, exec, bind, modify, ret.
    repeat step_loader.
    cbn [snd after_load requests comp].
    assert (Ec : Register.countries
                   match load_data nc with
                   | Some d =>
                       Register.with_countries d
                         {| Register.isClient := true;
                            Register.form_state :=
                              Register.form_state (comp w);
                            Register.countries :=
                              Register.countries (comp w) |}
                   | None =>
                       {| Register.isClient := true;
                          Register.form_state := Register.form_state (comp w);
                          Register.countries := Register.countries (comp w) |}
                   end
                 = loaded nc (Register.countries (comp w)))
      by (unfold loaded; destruct (load_data nc); reflexivity).
    repeat apply conj; auto.
    intros l H.
    destruct (records_loaded H) as (es & E & _ & I).
    unfold RegisterSelect.country_items. rewrite E.
    exact I.
Qed.

Lemma C7_witness :
  requests (exec (Part000.mount sample_nets000
                    [Part000.Roles; Part000.Countries]) Part000.initial)
  = [GET (str "https://api.olympcentre.uz/api/countries/");
     GET (str "https://api.olympcentre.uz/api/roles/")]
  /\ Part000Select.country_items
       (comp (exec (Part000.mount sample_nets000
                      [Part000.Roles; Part000.Countries]) Part000.initial))
     = Some [{| item_key := VNum (Int 1); item_value := VStr (str "1");
                item_children := VStr (str "Uzbekistan") |}].
Proof.
  destruct C7_option_loading as (H & _).
  destruct (H sample_nets000 [Part000.Roles; Part000.Countries]
              Part000.initial (perm_swap _ _ []))
    as (R & _ & _ & I & _).
  split; [exact R |].
  apply (I [(1%Z, str "Uzbekistan")]).
  exists {| status := 200;
            payload := Json (VArr [VObj [(str "id", VNum (Int 1));
                                         (str "name",
                                          VStr (str "Uzbekistan"))]]) |},
    [VObj [(str "id", VNum (Int 1)); (str "name", VStr (str "Uzbekistan"))]].
  repeat split.
  - repeat constructor.
  - repeat constructor. unfold safe_integer. vm_compute. discriminate.
Defined.

(** X8: the component state a mount leaves does not depend on the order
    in which the answers arrive: any two orders of the same loaders give
    the same lists and the same form. *)
Theorem loaders_order_irrelevant :
  (forall nets order order' w,
     Permutation order order' ->
     comp (exec (Part000.mount nets order) w)
     = comp (exec (Part000.mount nets order') w))
  /\ (forall api nets order order' w,
        Permutation order order' ->
        comp (exec (Part001.mount api nets order) w)
        = comp (exec (Part001.mount api nets order') w)).
Proof.
  split.
  - intros nets order order' w Hperm.
    destruct (part000_mount_run nets order w) as [l1 ->].
    destruct (part000_mount_run nets order' w) as [l2 ->].
    cbn [comp].
    apply (settled_state_permutation Part000.store nets
             (part000_stores_commute nets) Hperm).
  - intros api nets order order' w Hperm.
    destruct (part001_mount_run api nets order w) as [l1 ->].
    destruct (part001_mount_run api nets order' w) as [l2 ->].
    cbn [comp].
    apply (settled_state_permutation Part001.store nets
             (part001_stores_commute nets) Hperm).
Qed.

Lemma loaders_order_irrelevant_witness :
  comp (exec (Part000.mount sample_nets000
                [Part000.Roles; Part000.Countries]) Part000.initial)
  = comp (exec (Part000.mount sample_nets000
                  [Part000.Countries; Part000.Roles]) Part000.initial).
Proof.
  apply (proj1 loaders_order_irrelevant). apply perm_swap.
Defined.


Example mount_roles_fail_first :
  toasts (exec (Part000.mount (fun _ => server_error)
                  [Part000.Roles; Part000.Countries]) Part000.initial)
  = [ToastError (VStr (str "Failed to load roles"));
     ToastError (VStr (str "Failed to load countries"))].
Proof. vm_compute. reflexivity. Qed.
